(** * The document-terminal-viewer reducer

    A shallow embedding of
    [src/browser/jsx/containers/document-terminal-viewer/document-terminal-viewer.reducer.js]
    and the properties of the transcript state it derives.

    The reducer is written against seamless-immutable documents: [set],
    [setIn], [update], [updateIn] and [without] return a new document and
    never change the receiver.  Documents used as dictionaries ([actives],
    [responses], a mime bundle) are finite maps of their own keys with
    string keys.  Where the source reads a property by a name that comes
    with a message ([state.responses[id]], [state.actives[id]],
    [responseTypeHandlers[type]]), the read goes on from the own keys to
    what every object has besides: the members of [Object.prototype] and,
    on a document, the methods of the library. *)

From Stdlib Require Import Ascii.
From stdpp Require Import base option list strings gmap.

(** ** JavaScript values and completions *)

(** The values that end up in an active request's [errors] array. *)
#[warnings="-register-all"]
Inductive JsValue :=
| JsUndefined
| JsString (s : string)
| JsArray (l : list JsValue).

(** [undefined] or a string, as [_.get] hands it out. *)
Definition js_of_string (s : option string) : JsValue :=
  match s with
  | Some s => JsString s
  | None => JsUndefined
  end.

(** Truthiness of something that is either absent or a string. *)
Definition truthy (s : option string) : bool :=
  match s with
  | Some s => negb (String.eqb s "")
  | None => false
  end.

(** The property key a value turns into when it indexes a document. *)
Definition prop_key (k : option string) : string :=
  default "undefined" k.

(** [a || b] *)
Definition js_or (a b : option string) : option string :=
  if truthy a then a else b.

(** [a + value] for a string [value] *)
Definition js_plus (a : option string) (value : string) : string :=
  default "undefined" a +:+ value.

Inductive JsError :=
| TypeError (what : string)
| ServiceError.

(** What a call may hand back in place of a state document, when the
    callee is not one of this file's handlers. *)
Inductive NonState :=
| NsString (s : string)
| NsBoolean (b : bool)
| NsHandlerTable.

(** How a call ends: with a value, with [undefined] (the function fell off
    its end), with something that is not of the expected kind, or with an
    exception. *)
Inductive completion (A : Type) :=
| Returned (a : A)
| ReturnedUndefined
| ReturnedOther (v : NonState)
| Threw (e : JsError).
Arguments Returned {A} a.
Arguments ReturnedUndefined {A}.
Arguments ReturnedOther {A} v.
Arguments Threw {A} e.

#[global] Instance completion_ret : MRet completion := @Returned.

#[global] Instance completion_bind : MBind completion := λ A B k c,
  match c with
  | Returned a => k a
  | ReturnedUndefined => ReturnedUndefined
  | ReturnedOther v => ReturnedOther v
  | Threw e => Threw e
  end.

(** ** Property reads

    [object[key]] finds an own key first and goes on to the prototype. *)

(** The members of [Object.prototype]. *)
Inductive ObjectMember :=
| constructor_
| toString
| toLocaleString
| valueOf
| hasOwnProperty
| isPrototypeOf
| propertyIsEnumerable
| proto__
| defineGetter__
| defineSetter__
| lookupGetter__
| lookupSetter__.

Definition Object_prototype : gmap string ObjectMember :=
  list_to_map
    [("constructor", constructor_); ("toString", toString);
     ("toLocaleString", toLocaleString); ("valueOf", valueOf);
     ("hasOwnProperty", hasOwnProperty); ("isPrototypeOf", isPrototypeOf);
     ("propertyIsEnumerable", propertyIsEnumerable);
     ("__proto__", proto__);
     ("__defineGetter__", defineGetter__);
     ("__defineSetter__", defineSetter__);
     ("__lookupGetter__", lookupGetter__);
     ("__lookupSetter__", lookupSetter__)].

(** What seamless-immutable puts on every document besides its keys: the
    methods of its interface (this file calls [set], [setIn], [update],
    [updateIn], [without] and [asMutable]) and its marker. *)
Definition immutable_methods : list string :=
  ["merge"; "replace"; "without"; "asMutable"; "set"; "setIn"; "update";
   "updateIn"; "getIn"; "__immutable_invariants_hold"].

(** What a read finds: the value under an own key, something the object
    has without it being one of its keys (truthy, and no entry), or
    [undefined]. *)
Inductive Property (A : Type) :=
| Own (v : A)
| Foreign
| Missing.
Arguments Own {A} v.
Arguments Foreign {A}.
Arguments Missing {A}.

(** [document[key]] on a seamless-immutable document. *)
Definition get_document {A} (document : gmap string A) (key : string)
    : Property A :=
  match document !! key with
  | Some v => Own v
  | None =>
      if bool_decide (key ∈ immutable_methods) then Foreign
      else match Object_prototype !! key with
           | Some _ => Foreign
           | None => Missing
           end
  end.

(** Truthiness of what a read found; an entry is an object. *)
Definition found {A} (property : Property A) : bool :=
  match property with
  | Own _ | Foreign => true
  | Missing => false
  end.

(** A name that reads as [undefined] on any object that does not have it
    as a key. *)
Definition plain_name (key : string) : Prop :=
  (key ∉ immutable_methods) ∧ (Object_prototype !! key = None).

(** [member(state, result)] with the handler table for [this]:
    [Object(state)] is [state]; [toString] and [toLocaleString] give
    [[object Object]]; [valueOf] gives the table; the three tests take
    [state] for a property name or an object and answer [false]; the two
    lookups find nothing; the two definers refuse [result] as an accessor;
    and [__proto__] is an object, not a function. *)
Definition call_member {A} (member : ObjectMember) (state : A)
    : completion A :=
  match member with
  | constructor_ => Returned state
  | toString | toLocaleString => ReturnedOther (NsString "[object Object]")
  | valueOf => ReturnedOther NsHandlerTable
  | hasOwnProperty | isPrototypeOf | propertyIsEnumerable =>
      ReturnedOther (NsBoolean false)
  | lookupGetter__ | lookupSetter__ => ReturnedUndefined
  | defineGetter__ | defineSetter__ =>
      Threw (TypeError "Object.prototype.__defineGetter__: Expecting function")
  | proto__ => Threw (TypeError "responseTypeHandlers[responseType] is not a function")
  end.

Definition throws {A} (c : completion A) : Prop :=
  match c with
  | Threw _ => True
  | _ => False
  end.

(** ** Strings: [split] and [join] on a one-character separator *)

Definition newline : ascii := ascii_of_nat 10.
Definition nl : string := String newline EmptyString.

(** [s.split(sep)]: always at least one piece. *)
Fixpoint str_split (sep : ascii) (s : string) : list string :=
  match s with
  | EmptyString => [EmptyString]
  | String c rest =>
      if Ascii.eqb c sep then EmptyString :: str_split sep rest
      else match str_split sep rest with
           | piece :: pieces => String c piece :: pieces
           | [] => [String c EmptyString]
           end
  end.

(** [pieces.join(sep)]. *)
Fixpoint str_join (sep : string) (pieces : list string) : string :=
  match pieces with
  | [] => EmptyString
  | piece :: rest =>
      match rest with
      | [] => piece
      | _ :: _ => piece +:+ sep +:+ str_join sep rest
      end
  end.

(** ** Data model *)

(** A mime bundle: representation by mime type. *)
Abbreviation Data := (gmap string string).

(** The items of the transcript, by their [type] tag. *)
Inductive HistoryItem :=
| TextItem (source : option string) (html : string)
| AnnotationItem (data : Data)
| PythonErrorItem (name value : option string)
                  (traceback stacktrace : list string)
| PageBreakItem
| AutocompleteItem (matches : list string).

Definition item_type (item : HistoryItem) : string :=
  match item with
  | TextItem _ _ => "text"
  | AnnotationItem _ => "annotation"
  | PythonErrorItem _ _ _ _ => "pythonError"
  | PageBreakItem => "pageBreak"
  | AutocompleteItem _ => "autocomplete"
  end.

Record ActiveRequest := { errors : option (list JsValue) }.

(** [{}] *)
Definition emptyActive : ActiveRequest := {| errors := None |}.

(** The state document.  [responses] may be missing altogether;
    [commandLine] stands for the keys owned by the prompt-viewer reducer,
    which nothing in this file reads or writes. *)
Record State {Number CommandLineState : Type} := {
  items : list HistoryItem;
  actives : gmap string ActiveRequest;
  responses : option (gmap string unit);
  fontSize : option Number;
  cwd : option string;
  promptLabel : option string;
  continueLabel : option string;
  commandLine : CommandLineState
}.
Arguments State : clear implicits.

(** The [content] of a protocol message; every field may be missing. *)
Record Content := {
  data : option Data;
  ename : option string;
  evalue : option string;
  traceback : option (list string);
  name : option string;
  code : option string;
  text : option string;
  execution_state : option string
}.

Record Message := {
  content : Content;
  parent_header_msg_id : option string;
  msg_type : option string
}.

(** The payload of a prompt-viewer command. *)
Record Command := { clearAutocompleteFlag : bool }.

(** ** External collaborators *)

(** [services/text-util].  [fromAsciiToHtml] turns a text into markup;
    what it does with [undefined] is not fixed by its interface, [None]
    stands for raising.  A stream converter carries its state from one line
    to the next. *)
Record TextUtil := {
  fromAsciiToHtml : string → string;
  fromAsciiToHtml_undefined : option string;
  Converter : Type;
  getAsciiToHtmlStream : Converter;
  toHtml : Converter → string → string * Converter
}.

(** [traceback.map(line => converter.toHtml(line))] *)
Fixpoint map_toHtml (tu : TextUtil) (converter : Converter tu)
    (lines : list string) : list string :=
  match lines with
  | [] => []
  | line :: rest =>
      let '(html, converter') := toHtml tu converter line in
      html :: map_toHtml tu converter' rest
  end.

(** [textUtil.fromAsciiToHtml(text)] where [text] may be [undefined]. *)
Definition call_fromAsciiToHtml (tu : TextUtil) (text : option string)
    : completion string :=
  match text with
  | Some t => Returned (fromAsciiToHtml tu t)
  | None =>
      match fromAsciiToHtml_undefined tu with
      | Some html => Returned html
      | None => Threw ServiceError
      end
  end.

(** ** A sample session

    Collaborators and documents to run the reducer on: a markup function
    that hands the text through (and the empty markup for a missing text),
    a converter without state, font sizes as naturals, no command line. *)

Module Sample.

Definition textUtil : TextUtil :=
  {| fromAsciiToHtml := λ t, t;
     fromAsciiToHtml_undefined := Some "";
     Converter := unit;
     getAsciiToHtmlStream := ();
     toHtml := λ converter line, (line, converter) |}.

Definition toNumber (value : JsValue) : nat :=
  match value with
  | JsString s => String.length s
  | _ => 0
  end.

Definition execute (state : State nat unit) : completion (State nat unit) :=
  Returned state.

(** A fresh document: nothing shown, nothing in flight, no request issued. *)
Definition fresh : State nat unit :=
  {| items := []; actives := ∅; responses := Some ∅;
     fontSize := Some 12; cwd := Some "/home"; promptLabel := None;
     continueLabel := None; commandLine := () |}.

(** The same document without a [responses] key. *)
Definition unrouted : State nat unit :=
  {| items := []; actives := ∅; responses := None;
     fontSize := Some 12; cwd := Some "/home"; promptLabel := None;
     continueLabel := None; commandLine := () |}.

(** Request [R] was issued and is busy, its error list is empty. *)
Definition busyR : State nat unit :=
  {| items := [];
     actives := {[ "R" := {| errors := Some [] |} ]};
     responses := Some {[ "R" := () ]};
     fontSize := Some 12; cwd := Some "/home"; promptLabel := None;
     continueLabel := None; commandLine := () |}.

(** Request [5] was issued, with Python's prompt labels configured. *)
Definition prompted : State nat unit :=
  {| items := []; actives := ∅; responses := Some {[ "5" := () ]};
     fontSize := Some 12; cwd := Some "/home"; promptLabel := Some ">>> ";
     continueLabel := Some "... "; commandLine := () |}.

(** Request [5] was issued, no prompt labels. *)
Definition issued : State nat unit :=
  {| items := []; actives := ∅; responses := Some {[ "5" := () ]};
     fontSize := Some 12; cwd := Some "/home"; promptLabel := None;
     continueLabel := None; commandLine := () |}.

(** Only a suggestion overlay is on show. *)
Definition overlaid : State nat unit :=
  {| items := [AutocompleteItem ["print"; "property"]]; actives := ∅;
     responses := Some ∅;
     fontSize := Some 12; cwd := Some "/home"; promptLabel := None;
     continueLabel := None; commandLine := () |}.

Definition noContent : Content :=
  {| data := None; ename := None; evalue := None; traceback := None;
     name := None; code := None; text := None; execution_state := None |}.

(** [ValueError: bad] reported against [R], with the given traceback. *)
Definition valueError (lines : list string) : Message :=
  {| content :=
       {| data := None; ename := Some "ValueError"; evalue := Some "bad";
          traceback := Some lines; name := None; code := None; text := None;
          execution_state := None |};
     parent_header_msg_id := Some "R";
     msg_type := Some "error" |}.

(** An [execute_input] for request [5], with or without its code. *)
Definition input (code : option string) : Message :=
  {| content :=
       {| data := None; ename := None; evalue := None; traceback := None;
          name := Some "stdin"; code := code; text := None;
          execution_state := None |};
     parent_header_msg_id := Some "5";
     msg_type := Some "execute_input" |}.

(** A message for request [5] of the given type and without content. *)
Definition ofType (responseType : string) : Message :=
  {| content := noContent;
     parent_header_msg_id := Some "5";
     msg_type := Some responseType |}.

(** A markup function that raises on a missing text. *)
Definition strictTextUtil : TextUtil :=
  {| fromAsciiToHtml := λ t, t;
     fromAsciiToHtml_undefined := None;
     Converter := unit;
     getAsciiToHtmlStream := ();
     toHtml := λ converter line, (line, converter) |}.

(** A message of a type no handler exists for, for request [5]. *)
Definition commOpen : Message :=
  {| content := noContent;
     parent_header_msg_id := Some "5";
     msg_type := Some "comm_open" |}.

(** An [execute_result] for request [5] with a plain-text representation. *)
Definition result42 : Message :=
  {| content :=
       {| data := Some {[ "text/plain" := "42" ]}; ename := None;
          evalue := None; traceback := None; name := None; code := None;
          text := None; execution_state := None |};
     parent_header_msg_id := Some "5";
     msg_type := Some "execute_result" |}.

(** The empty string was registered as a request. *)
Definition blankIssued : State nat unit :=
  {| items := []; actives := ∅; responses := Some {[ "" := () ]};
     fontSize := Some 12; cwd := Some "/home"; promptLabel := None;
     continueLabel := None; commandLine := () |}.

(** A [status] message whose request identifier is the empty string. *)
Definition blankStatus : Message :=
  {| content :=
       {| data := None; ename := None; evalue := None; traceback := None;
          name := None; code := None; text := None;
          execution_state := Some "busy" |};
     parent_header_msg_id := Some "";
     msg_type := Some "status" |}.

(** A [status] message for the given request. *)
Definition statusOf (requestId executionState : string) : Message :=
  {| content :=
       {| data := None; ename := None; evalue := None; traceback := None;
          name := None; code := None; text := None;
          execution_state := Some executionState |};
     parent_header_msg_id := Some requestId;
     msg_type := Some "status" |}.

End Sample.

(** A name that is written out is plain: none of the names listed. *)
Ltac plain :=
  split;
  [let H := fresh in
   intros H; repeat (apply elem_of_cons in H as [[=]|H]);
   by apply elem_of_nil in H
  |reflexivity].

(** ** The reducer *)

Section Reducer.
Context {Number CommandLineState : Type}.

(** [services/text-util], lodash's [_.toNumber] on a preference value,
    and [promptActionService.execute]. *)
Variable textUtil : TextUtil.
Variable toNumber : JsValue → Number.
Variable promptActionService_execute :
  State Number CommandLineState → completion (State Number CommandLineState).

Local Abbreviation St := (State Number CommandLineState).

(** *** [state.set(key, value)] for the keys written in this file *)

Definition set_items (state : St) (v : list HistoryItem) : St :=
  {| items := v; actives := actives state; responses := responses state;
     fontSize := fontSize state; cwd := cwd state;
     promptLabel := promptLabel state;
     continueLabel := continueLabel state;
     commandLine := commandLine state |}.

Definition set_actives (state : St) (v : gmap string ActiveRequest) : St :=
  {| items := items state; actives := v; responses := responses state;
     fontSize := fontSize state; cwd := cwd state;
     promptLabel := promptLabel state;
     continueLabel := continueLabel state;
     commandLine := commandLine state |}.

Definition set_responses (state : St) (v : gmap string unit) : St :=
  {| items := items state; actives := actives state; responses := Some v;
     fontSize := fontSize state; cwd := cwd state;
     promptLabel := promptLabel state;
     continueLabel := continueLabel state;
     commandLine := commandLine state |}.

Definition set_fontSize (state : St) (v : Number) : St :=
  {| items := items state; actives := actives state;
     responses := responses state;
     fontSize := Some v; cwd := cwd state;
     promptLabel := promptLabel state;
     continueLabel := continueLabel state;
     commandLine := commandLine state |}.

Definition set_cwd (state : St) (v : option string) : St :=
  {| items := items state; actives := actives state;
     responses := responses state;
     fontSize := fontSize state; cwd := v;
     promptLabel := promptLabel state;
     continueLabel := continueLabel state;
     commandLine := commandLine state |}.

(** [active.set('errors', v)]: a new document, [active] stays as it is. *)
Definition set_errors (active : ActiveRequest) (v : list JsValue)
    : ActiveRequest :=
  {| errors := Some v |}.

(** [actives.without(key)]; an [undefined] argument names no own key. *)
Definition without (key : option string) (m : gmap string ActiveRequest)
    : gmap string ActiveRequest :=
  match key with
  | Some k => delete k m
  | None => m
  end.

(** *** History log *)

Definition addHistoryItem (state : St) (item : HistoryItem) : St :=
  set_items state (items state ++ [item]).

(** *** Handlers by message type *)

Definition display_data (state : St) (result : Message) : completion St :=
  let data := data (content result) in
  match data with
  | Some data => Returned (addHistoryItem state (AnnotationItem data))
  | None => Returned state
  end.

Definition error (state : St) (result : Message) : completion St :=
  let converter := getAsciiToHtmlStream textUtil in
  let responseMsgId := parent_header_msg_id result in
  let name := ename (content result) in
  let value := evalue (content result) in
  match traceback (content result) with
  | None => Threw (TypeError "Cannot read property 'map' of undefined")
  | Some traceback =>
      let stacktrace := map_toHtml textUtil converter traceback in
      let state :=
        addHistoryItem state
          (PythonErrorItem name value traceback stacktrace) in
      match get_document (actives state) (prop_key responseMsgId) with
      | Own active =>
          let updated :=
            let errors := default [] (errors active) in
            let _ :=
              set_errors active
                (errors ++ [js_of_string name; js_of_string value;
                            JsArray (JsString <$> traceback)]) in
            active in
          Returned
            (set_actives state
               (<[prop_key responseMsgId := updated]> (actives state)))
      | Foreign => Threw (TypeError "active.set is not a function")
      | Missing => Returned state
      end
  end.

(** The arrow function mapped over the lines of the code. *)
Definition prefix_line (state : St) (index : nat) (value : string) : string :=
  if Nat.eqb index 0 then js_plus (promptLabel state) value
  else js_plus (js_or (continueLabel state) (promptLabel state)) value.

Definition execute_input (state : St) (result : Message) : completion St :=
  let source := name (content result) in
  let text := code (content result) in
  text ←
    (if truthy (promptLabel state) then
       match text with
       | None => Threw (TypeError "Cannot read property 'split' of undefined")
       | Some text =>
           Returned
             (Some (str_join nl (imap (prefix_line state)
                                      (str_split newline text))))
       end
     else Returned text);
  html ← call_fromAsciiToHtml textUtil text;
  Returned (addHistoryItem state (TextItem source html)).

Definition execute_result (state : St) (result : Message) : completion St :=
  let data := data (content result) in
  match data with
  | Some data =>
      if truthy (data !! "text/plain") then
        html ← call_fromAsciiToHtml textUtil (data !! "text/plain");
        Returned (addHistoryItem state (TextItem (Some "stdout") html))
      else Returned (addHistoryItem state (AnnotationItem data))
  | None => Returned state
  end.

Definition execute_reply (state : St) (result : Message) : completion St :=
  Returned state.

Definition status (state : St) (result : Message) : completion St :=
  let responseMsgId := parent_header_msg_id result in
  let executionState := execution_state (content result) in
  let state :=
    if decide (executionState = Some "busy") then
      set_actives state
        (<[prop_key responseMsgId := emptyActive]> (actives state))
    else set_actives state (without responseMsgId (actives state)) in
  Returned (addHistoryItem state PageBreakItem).

Definition stream (state : St) (result : Message) : completion St :=
  let source := name (content result) in
  html ← call_fromAsciiToHtml textUtil (text (content result));
  Returned (addHistoryItem state (TextItem source html)).

(** The own properties of the object literal; [responseTypeHandlers[type]]
    in [jupyterResponseDetected] reads on into [Object.prototype]. *)
Definition responseTypeHandlers
    : gmap string (St → Message → completion St) :=
  list_to_map
    [("display_data", display_data); ("error", error);
     ("execute_input", execute_input); ("execute_result", execute_result);
     ("execute_reply", execute_reply); ("status", status);
     ("stream", stream)].

(** *** Direct commands *)

Definition executing (state : St) : completion St :=
  promptActionService_execute state.

(** No [return] when [state.responses] is missing. *)
Definition executed (state : St) (payload : string) : completion St :=
  match responses state with
  | Some responses => Returned (set_responses state (<[payload := ()]> responses))
  | None => ReturnedUndefined
  end.

(** [result] is [action.payload.result]; a missing one reads like a
    message all of whose fields are missing. *)
Definition jupyterResponseDetected (state : St) (result : Message)
    : completion St :=
  let responseMsgId := parent_header_msg_id result in
  if truthy responseMsgId
     && match responses state with
        | Some responses =>
            found (get_document responses (prop_key responseMsgId))
        | None => false
        end
  then
    let responseType := msg_type result in
    match responseTypeHandlers !! prop_key responseType with
    | Some handler => handler state result
    | None =>
        match Object_prototype !! prop_key responseType with
        | Some member => call_member member state
        | None => Returned state
        end
    end
  else Returned state.

Definition changePreference (state : St) (key : option string)
    (value : JsValue) : St :=
  if decide (key = Some "fontSize") then set_fontSize state (toNumber value)
  else state.

Definition workingDirectoryChanged (state : St) (cwd : option string) : St :=
  if truthy cwd then set_cwd state cwd else state.

Definition interrupting (state : St) : St := state.

(** [error] is the truthiness of [action.error]; the payload only goes to
    the console. *)
Definition interrupted (state : St) (error : bool) : St :=
  if error then
    addHistoryItem state (TextItem (Some "stderr") "Unable to interrupt terminal")
  else state.

Definition restarting (state : St) : St :=
  addHistoryItem state (TextItem (Some "stdout") "restarting terminal...").

Definition restarted (state : St) (error : bool) : St :=
  if error then
    addHistoryItem state (TextItem (Some "stderr") "Unable to restart terminal")
  else addHistoryItem state (TextItem (Some "stdout") "done").

Definition clear (state : St) : St := set_items state [].

(** [pop] on a mutable copy; popping an empty array leaves it empty. *)
Definition removeLastHistoryItem (state : St) : St :=
  set_items state (removelast (items state)).

(** [lastItem && lastItem.type === 'autocomplete'] *)
Definition is_autocomplete (lastItem : option HistoryItem) : bool :=
  match lastItem with
  | Some item => String.eqb (item_type item) "autocomplete"
  | None => false
  end.

Definition autocomplete (state : St) (matches : list string) : St :=
  let lastItem := last (items state) in
  let state :=
    if is_autocomplete lastItem then removeLastHistoryItem state else state in
  addHistoryItem state (AutocompleteItem matches).

Definition clearAutocomplete (state : St) : St :=
  let lastItem := last (items state) in
  if is_autocomplete lastItem then removeLastHistoryItem state else state.

(** [command] is [action.payload]; reading a flag off a missing payload
    raises. *)
Definition promptCommand (state : St) (command : option Command)
    : completion St :=
  match command with
  | None =>
      Threw (TypeError "Cannot read property 'clearAutocomplete' of undefined")
  | Some command =>
      if clearAutocompleteFlag command then Returned (clearAutocomplete state)
      else Returned state
  end.

(** *** Dispatch on the action type *)

Inductive Action :=
| AUTOCOMPLETE (payload : list string)
| CLEAR_AUTOCOMPLETE
| CLEAR
| INTERRUPTING
| INTERRUPTED (error : bool)
| EXECUTING
| EXECUTED (payload : string)
| RESTARTING
| RESTARTED (error : bool)
| JUPYTER_RESPONSE (result : Message)
| CHANGE_PREFERENCE (key : option string) (value : JsValue)
| WORKING_DIRECTORY_CHANGED (cwd : option string)
| PROMPT_VIEWER_COMMAND (payload : option Command).

(** Modelled from the spec: [mapReducers] ([services/map-reducers]) is not
    part of this file.  Each direct command is processed by the single
    handler registered under its name in the map this file hands over;
    [Action] has one constructor per entry of that map, with the fields of
    the action its handler reads.  The default export then pipes the result
    through [promptViewerReducer], which is outside this file as well. *)
Definition reducer (state : St) (action : Action) : completion St :=
  match action with
  | AUTOCOMPLETE payload => Returned (autocomplete state payload)
  | CLEAR_AUTOCOMPLETE => Returned (clearAutocomplete state)
  | CLEAR => Returned (clear state)
  | INTERRUPTING => Returned (interrupting state)
  | INTERRUPTED error => Returned (interrupted state error)
  | EXECUTING => executing state
  | EXECUTED payload => executed state payload
  | RESTARTING => Returned (restarting state)
  | RESTARTED error => Returned (restarted state error)
  | JUPYTER_RESPONSE result => jupyterResponseDetected state result
  | CHANGE_PREFERENCE key value => Returned (changePreference state key value)
  | WORKING_DIRECTORY_CHANGED cwd => Returned (workingDirectoryChanged state cwd)
  | PROMPT_VIEWER_COMMAND payload => promptCommand state payload
  end.

(** Events delivered one after the other. *)
Fixpoint run (state : St) (actions : list Action) : completion St :=
  match actions with
  | [] => Returned state
  | action :: rest => state' ← reducer state action; run state' rest
  end.


(** *** Notions the properties are stated with *)

(** The request was issued by this viewer: [responses] exists and has the
    identifier as a key. *)
Definition registered (state : St) (requestId : string) : Prop :=
  ∃ issued, responses state = Some issued ∧ is_Some (issued !! requestId).

Definition count_autocomplete (log : list HistoryItem) : nat :=
  length (filter (λ item, item_type item = "autocomplete") log).

(** Whatever overlay there is sits at the end of the log. *)
Definition overlay_at_tail (log : list HistoryItem) : Prop :=
  ∀ i item,
    log !! i = Some item → item_type item = "autocomplete" →
    S i = length log.

Definition overlay_command (action : Action) : Prop :=
  match action with
  | AUTOCOMPLETE _ | CLEAR_AUTOCOMPLETE => True
  | _ => False
  end.

(** The message types a handler exists for. *)
Definition known_types : list string :=
  ["display_data"; "error"; "execute_input"; "execute_result";
   "execute_reply"; "status"; "stream"].

(** A handler either leaves the log alone or puts one item at its end. *)
Definition log_grows_by_at_most_one (state state' : St) : Prop :=
  items state' = items state ∨ ∃ item, items state' = items state ++ [item].

(** No overlay below the last item. *)
Definition overlay_free_below (log : list HistoryItem) : Prop :=
  count_autocomplete (removelast log) = 0.

(** Events that only ever add to the log: no [clear], no overlay command,
    no prompt command that retracts the overlay, and not the [execute]
    command, which goes to a helper outside this file. *)
Definition appending (action : Action) : Prop :=
  match action with
  | CLEAR | EXECUTING | AUTOCOMPLETE _ | CLEAR_AUTOCOMPLETE => False
  | PROMPT_VIEWER_COMMAND payload =>
      payload = Some {| clearAutocompleteFlag := false |}
  | _ => True
  end.

(** The fields no message handler writes. *)
Definition same_session (state state' : St) : Prop :=
  responses state' = responses state
  ∧ fontSize state' = fontSize state
  ∧ cwd state' = cwd state
  ∧ promptLabel state' = promptLabel state
  ∧ continueLabel state' = continueLabel state
  ∧ commandLine state' = commandLine state.

(** The message types whose handlers read no field they could miss. *)
Definition unconditional_types : list string :=
  ["display_data"; "execute_result"; "execute_reply"; "status"].

(** Events that put no item at the end of the log. *)
Definition overlay_safe (action : Action) : Prop :=
  match action with
  | AUTOCOMPLETE _ | CLEAR_AUTOCOMPLETE | CLEAR | INTERRUPTING
  | EXECUTED _ | CHANGE_PREFERENCE _ _ | WORKING_DIRECTORY_CHANGED _
  | PROMPT_VIEWER_COMMAND _ => True
  | INTERRUPTED error => error = false
  | _ => False
  end.

(** What a message that lacks fields may come to: the state as it was, or
    the state with one more item in the log; a [status] message sets what
    is active as well. *)
Definition degrades_to (state : St) (result : Message) (state' : St) : Prop :=
  state' = state
  ∨ (∃ item, state' = addHistoryItem state item)
  ∨ (msg_type result = Some "status"
     ∧ ∃ active,
         state' = addHistoryItem (set_actives state active) PageBreakItem).

(** The message lacks the text its handler hands to the markup function. *)
Definition markup_text_missing (state : St) (result : Message) : Prop :=
  (msg_type result = Some "stream" ∧ text (content result) = None)
  ∨ (msg_type result = Some "execute_input"
     ∧ code (content result) = None
     ∧ truthy (promptLabel state) = false).

(** How the handling of a message that lacks fields may end.  Either it
    returns a state the message degrades to, which is the state as it was
    when a [display_data] or [execute_result] message has no data; or the
    markup function was handed the missing text, does not take it, and its
    exception is the outcome. *)
Definition degrades_gracefully (state : St) (result : Message)
    (outcome : completion St) : Prop :=
  (∃ state',
     outcome = Returned state'
     ∧ degrades_to state result state'
     ∧ (data (content result) = None →
        prop_key (msg_type result) ∈ ["display_data"; "execute_result"] →
        state' = state))
  ∨ (outcome = Threw ServiceError
     ∧ fromAsciiToHtml_undefined textUtil = None
     ∧ markup_text_missing state result).

(** Case analysis on a call that is known to have returned a state. *)
Ltac returned :=
  repeat match goal with
    | H : Returned _ = Returned _ |- _ => injection H as <-
    | H : Threw _ = Returned _ |- _ => discriminate H
    | H : ReturnedUndefined = Returned _ |- _ => discriminate H
    | H : ReturnedOther _ = Returned _ |- _ => discriminate H
    | H : context [match ?c with _ => _ end] |- _ =>
        destruct c eqn:?; simpl in H
    end.

(** Membership in a list that is written out. *)
Ltac listed := repeat (apply elem_of_cons; first [by left | right]).

(** ** Properties *)

(** *** Strings *)

Lemma str_split_nonempty sep s : str_split sep s ≠ [].
Proof.
  destruct s as [|c rest]; simpl; [done|].
  destruct (Ascii.eqb c sep); [done|].
  by destruct (str_split sep rest).
Qed.

Lemma str_join_cons sep piece rest :
  rest ≠ [] → str_join sep (piece :: rest) = piece +:+ sep +:+ str_join sep rest.
Proof. by destruct rest. Qed.

(** Joining what was split gives the text back. *)
Lemma str_join_split s : str_join nl (str_split newline s) = s.
Proof.
  induction s as [|c rest IH]; simpl; [done|].
  destruct (Ascii.eqb_spec c newline) as [->|Hc].
  - rewrite str_join_cons by apply str_split_nonempty.
    by rewrite IH.
  - pose proof (str_split_nonempty newline rest) as Hne.
    destruct (str_split newline rest) as [|piece pieces]; [done|].
    destruct pieces as [|piece' pieces]; simpl in *; by rewrite <- IH.
Qed.

(** *** The history log *)

Lemma is_autocomplete_Some item :
  is_autocomplete (Some item) = true ↔ item_type item = "autocomplete".
Proof. apply String.eqb_eq. Qed.

Lemma count_autocomplete_app log log' :
  count_autocomplete (log ++ log')
  = count_autocomplete log + count_autocomplete log'.
Proof. unfold count_autocomplete. by rewrite filter_app, length_app. Qed.

Lemma count_autocomplete_one item :
  count_autocomplete [item]
  = if decide (item_type item = "autocomplete") then 1 else 0.
Proof.
  unfold count_autocomplete. rewrite filter_cons, filter_nil.
  by case_decide.
Qed.

Lemma count_autocomplete_zero log :
  count_autocomplete log = 0 ↔
  ∀ item, item ∈ log → item_type item ≠ "autocomplete".
Proof.
  unfold count_autocomplete. rewrite length_zero_iff_nil.
  split.
  - intros Hnil item Hin Hty.
    assert (item ∈ filter (λ item, item_type item = "autocomplete") log) as Hf
      by (by apply list_elem_of_filter).
    rewrite Hnil in Hf. by apply not_elem_of_nil in Hf.
  - intros Hall. apply elem_of_nil_inv. intros item Hin.
    apply list_elem_of_filter in Hin as [Hty Hin]. by apply (Hall item).
Qed.

Lemma overlay_free_below_snoc log item :
  overlay_free_below (log ++ [item]) ↔ count_autocomplete log = 0.
Proof. unfold overlay_free_below. by rewrite removelast_last. Qed.

Lemma overlay_free_start log :
  count_autocomplete log = 0 → overlay_free_below log.
Proof.
  destruct log as [|item log _] using rev_ind; [done|].
  rewrite overlay_free_below_snoc, count_autocomplete_app. lia.
Qed.

(** With nothing but the last item an overlay, there is at most one and it
    is where the log ends. *)
Lemma overlay_free_below_single log :
  overlay_free_below log →
  count_autocomplete log ≤ 1 ∧ overlay_at_tail log.
Proof.
  destruct log as [|last log _] using rev_ind.
  - intros _. split; [cbv; lia|]. by intros i item Hi.
  - rewrite overlay_free_below_snoc. intros Hbelow. split.
    + rewrite count_autocomplete_app, Hbelow, count_autocomplete_one.
      case_decide; lia.
    + intros i item Hi Hty. rewrite length_app. simpl.
      destruct (decide (i < length log)) as [Hlt|Hge].
      * rewrite lookup_app_l in Hi by done.
        apply list_elem_of_lookup_2 in Hi.
        rewrite count_autocomplete_zero in Hbelow.
        by destruct (Hbelow item Hi).
      * apply lookup_lt_Some in Hi. rewrite length_app in Hi.
        simpl in Hi. lia.
Qed.

Lemma log_end (log : list HistoryItem) :
  log = [] ∨ ∃ below item, log = below ++ [item].
Proof. destruct log using rev_ind; eauto. Qed.

Lemma autocomplete_overlay_free state matches :
  overlay_free_below (items state) →
  overlay_free_below (items (autocomplete state matches)).
Proof.
  unfold autocomplete, addHistoryItem, removeLastHistoryItem.
  destruct (log_end (items state)) as [Hlog|(below & item & Hlog)];
    rewrite Hlog.
  { intros _. simpl. rewrite Hlog. by apply (overlay_free_below_snoc []). }
  rewrite overlay_free_below_snoc, last_snoc. intros Hbelow.
  destruct (is_autocomplete (Some item)) eqn:Hlast; simpl.
  - by rewrite removelast_last, overlay_free_below_snoc.
  - rewrite Hlog, overlay_free_below_snoc, count_autocomplete_app, Hbelow.
    rewrite count_autocomplete_one. case_decide as Hty; [|done].
    apply is_autocomplete_Some in Hty. congruence.
Qed.

Lemma clearAutocomplete_overlay_free state :
  overlay_free_below (items state) →
  overlay_free_below (items (clearAutocomplete state)).
Proof.
  unfold clearAutocomplete, removeLastHistoryItem. intros Hfree.
  destruct (log_end (items state)) as [Hlog|(below & item & Hlog)].
  { rewrite Hlog. simpl. by rewrite Hlog. }
  rewrite Hlog, last_snoc.
  destruct (is_autocomplete (Some item)); simpl; [|done].
  rewrite removelast_last. apply overlay_free_start.
  rewrite Hlog in Hfree. by apply overlay_free_below_snoc in Hfree.
Qed.

Lemma run_overlay_free actions : ∀ state,
  Forall overlay_command actions →
  overlay_free_below (items state) →
  ∃ state', run state actions = Returned state'
            ∧ overlay_free_below (items state').
Proof.
  induction actions as [|action actions IH]; intros state Hcmds Hfree.
  - by exists state.
  - apply Forall_cons in Hcmds as [Hcmd Hcmds].
    destruct action; try done; simpl.
    + apply IH; [done|]. by apply autocomplete_overlay_free.
    + apply IH; [done|]. by apply clearAutocomplete_overlay_free.
Qed.

(** C4: starting from a log without an autocomplete item, after each
    command of a sequence of [autocomplete] and [clearAutocomplete]
    commands the reducer has returned a state whose log holds at most one
    autocomplete item, and that item, when there is one, is the last of
    the log. *)
Theorem autocomplete_single_overlay state actions n :
  Forall overlay_command actions →
  count_autocomplete (items state) = 0 →
  ∃ state',
    run state (take n actions) = Returned state'
    ∧ count_autocomplete (items state') ≤ 1
    ∧ overlay_at_tail (items state').
Proof.
  intros Hcmds Hnone.
  destruct (run_overlay_free (take n actions) state) as (state' & Hrun & Hfree).
  - by apply Forall_take.
  - by apply overlay_free_start.
  - exists state'. split; [done|]. by apply overlay_free_below_single.
Qed.

(** *** The message router *)

Lemma responseTypeHandlers_None responseType :
  responseTypeHandlers !! responseType = None ↔ responseType ∉ known_types.
Proof.
  unfold responseTypeHandlers. by rewrite <- not_elem_of_list_to_map.
Qed.

Lemma responseTypeHandlers_Some responseType handler :
  responseTypeHandlers !! responseType = Some handler →
  (responseType, handler) ∈
    [("display_data", display_data); ("error", error);
     ("execute_input", execute_input); ("execute_result", execute_result);
     ("execute_reply", execute_reply); ("status", status);
     ("stream", stream)].
Proof. apply elem_of_list_to_map_2. Qed.

Lemma responseTypeHandlers_status :
  responseTypeHandlers !! "status" = Some status.
Proof. reflexivity. Qed.

Lemma truthy_Some (s : option string) :
  truthy s = true ↔ ∃ t, s = Some t ∧ t ≠ "".
Proof.
  destruct s as [t|]; simpl.
  - rewrite negb_true_iff, String.eqb_neq. split.
    + intros Hne. by exists t.
    + by intros (t' & [= <-] & Hne).
  - split; [done|]. by intros (t & Ht & _).
Qed.

(** A message for a request this viewer issued reaches the handler of its
    type. *)
Lemma get_document_Some {A} (document : gmap string A) key v :
  document !! key = Some v → get_document document key = Own v.
Proof. unfold get_document. by intros ->. Qed.

Lemma get_document_Own {A} (document : gmap string A) key v :
  get_document document key = Own v → document !! key = Some v.
Proof.
  unfold get_document. destruct (document !! key); [by intros [= ->]|].
  case_bool_decide; [done|]. by destruct (Object_prototype !! key).
Qed.

Lemma get_document_plain {A} (document : gmap string A) key :
  plain_name key → document !! key = None →
  get_document document key = Missing.
Proof.
  intros [Hmethod Hmember] Hkey. unfold get_document.
  by rewrite Hkey, bool_decide_eq_false_2, Hmember.
Qed.

(** A message for a request this viewer issued reaches the handler of its
    type. *)
Lemma jupyterResponseDetected_routed state result requestId handler :
  parent_header_msg_id result = Some requestId →
  requestId ≠ "" →
  registered state requestId →
  responseTypeHandlers !! prop_key (msg_type result) = Some handler →
  jupyterResponseDetected state result = handler state result.
Proof.
  intros Hid Hne (issued & Hresp & [marker Hkey]) Hhandler.
  unfold jupyterResponseDetected. rewrite Hid, Hresp, Hhandler. simpl.
  apply String.eqb_neq in Hne. rewrite Hne. simpl.
  by rewrite (get_document_Some _ _ _ Hkey).
Qed.

(** Whatever returns a state is the state as it was or the work of one of
    the seven handlers: of the inherited members only [Object] returns a
    state, the one it was given. *)
Lemma jupyterResponseDetected_cases state result state' :
  jupyterResponseDetected state result = Returned state' →
  state' = state
  ∨ ∃ handler,
      responseTypeHandlers !! prop_key (msg_type result) = Some handler
      ∧ handler state result = Returned state'.
Proof.
  unfold jupyterResponseDetected.
  destruct (_ && _); [|intros [= <-]; by left].
  destruct (responseTypeHandlers !! _) as [handler|] eqn:Hhandler.
  { right. by exists handler. }
  destruct (Object_prototype !! _) as [member|]; [|intros [= <-]; by left].
  destruct member; simpl; try done. intros [= <-]. by left.
Qed.

(** A message is ignored when the name it comes under reads as
    [undefined]: a request identifier that is no key of [responses], or a
    type without a handler, neither being a name that objects have
    anyway. *)
Lemma plain_message_ignored state result :
  (∀ requestId,
     parent_header_msg_id result = Some requestId →
     plain_name requestId ∧ ¬ registered state requestId)
  ∨ ((prop_key (msg_type result) ∉ known_types)
     ∧ (Object_prototype !! prop_key (msg_type result) = None)) →
  jupyterResponseDetected state result = Returned state
  ∧ reducer state (JUPYTER_RESPONSE result) = Returned state.
Proof.
  intros Hirrelevant.
  assert (jupyterResponseDetected state result = Returned state) as Hsame;
    [|by split].
  unfold jupyterResponseDetected.
  destruct (truthy (parent_header_msg_id result)) eqn:Htruthy; [|done].
  apply truthy_Some in Htruthy as (requestId & Hid & _).
  destruct (responses state) as [issued|] eqn:Hresp; [|done].
  rewrite Hid. simpl.
  destruct Hirrelevant as [Hunknown|[Htype Hmember]].
  - destruct (Hunknown requestId Hid) as [Hplain Hunregistered].
    rewrite get_document_plain; [done..|].
    destruct (issued !! requestId) eqn:Hkey; [|done].
    destruct Hunregistered. by exists issued.
  - apply responseTypeHandlers_None in Htype. rewrite Htype, Hmember.
    by destruct (found _).
Qed.

(** *** Execution status *)

(** C5: a [status] message for request [requestId] with execution state
    [busy] puts an empty active entry under [requestId] (over any entry
    already there); with any other execution state, or none, it removes
    [requestId] from [actives], which leaves [actives] as they are when the
    request was not active.  Either way the handler returns, and the log
    is the old log followed by one page break. *)
Theorem status_tracks_busy state result requestId :
  parent_header_msg_id result = Some requestId →
  ∃ state',
    status state result = Returned state'
    ∧ items state' = items state ++ [PageBreakItem]
    ∧ (execution_state (content result) = Some "busy" →
       actives state' = <[requestId := emptyActive]> (actives state))
    ∧ (execution_state (content result) ≠ Some "busy" →
       actives state' = delete requestId (actives state)
       ∧ (actives state !! requestId = None →
          actives state' = actives state)).
Proof.
  intros Hid. unfold status. rewrite Hid.
  eexists. split; [done|].
  case_decide as Hbusy; simpl; (split; [done|]); split; try done.
  intros _. split; [done|]. intros Hinactive. by apply delete_id.
Qed.

(** *** Working directory *)

(** C10: [workingDirectoryChanged] with the empty string as [cwd] returns
    the state it was given, as it does with no [cwd] at all; so whatever
    [cwd] the command carries, a working directory that was not the empty
    string does not become the empty string. *)
Theorem workingDirectoryChanged_empty state cwd' :
  workingDirectoryChanged state (Some "") = state
  ∧ workingDirectoryChanged state None = state
  ∧ (cwd state ≠ Some "" →
     cwd (workingDirectoryChanged state cwd') ≠ Some "").
Proof.
  split; [done|]. split; [done|].
  intros Hcwd. unfold workingDirectoryChanged.
  destruct (truthy cwd') eqn:Htruthy; [|done].
  apply truthy_Some in Htruthy as (dir & -> & Hdir). simpl. congruence.
Qed.

(** *** Echoed input *)

(** C8: with a prompt label configured (a non-empty string), the
    [execute_input] handler splits the code at its line breaks and puts a
    label in front of every line before the text goes to markup rendering:
    [promptLabel] in front of the first line, and in front of each later
    line [continueLabel] when that is set (non-empty) and [promptLabel]
    otherwise.  The lines are joined again, rendered, and appended as a
    text item under the message's source name.  With the labels [>>> ] and
    [... ] the code [a], line break, [b] becomes [>>> a], line break,
    [... b]. *)
Theorem execute_input_prefixes_lines state result label text :
  promptLabel state = Some label →
  label ≠ "" →
  code (content result) = Some text →
  ∃ lines,
    execute_input state result
    = Returned
        (addHistoryItem state
           (TextItem (name (content result))
                     (fromAsciiToHtml textUtil (str_join nl lines))))
    ∧ length lines = length (str_split newline text)
    ∧ (∀ line, str_split newline text !! 0 = Some line →
               lines !! 0 = Some (label +:+ line))
    ∧ (∀ i line continue,
         str_split newline text !! S i = Some line →
         continueLabel state = Some continue → continue ≠ "" →
         lines !! S i = Some (continue +:+ line))
    ∧ (∀ i line,
         str_split newline text !! S i = Some line →
         truthy (continueLabel state) = false →
         lines !! S i = Some (label +:+ line))
    ∧ (label = ">>> " → continueLabel state = Some "... " →
       text = "a" +:+ nl +:+ "b" →
       str_join nl lines = ">>> a" +:+ nl +:+ "... b").
Proof.
  intros Hlabel Hne Hcode.
  exists (imap (prefix_line state) (str_split newline text)).
  assert (truthy (promptLabel state) = true) as Htruthy
    by (apply truthy_Some; eauto).
  split; [|split; [|split; [|split; [|split]]]].
  - unfold execute_input. by rewrite Htruthy, Hcode.
  - apply length_imap.
  - intros line Hline. rewrite list_lookup_imap, Hline. simpl.
    unfold prefix_line. simpl. by rewrite Hlabel.
  - intros i line continue Hline Hcontinue Hset.
    rewrite list_lookup_imap, Hline. simpl.
    unfold prefix_line, js_or. simpl.
    assert (truthy (continueLabel state) = true) as ->
      by (apply truthy_Some; eauto).
    by rewrite Hcontinue.
  - intros i line Hline Hunset.
    rewrite list_lookup_imap, Hline. simpl.
    unfold prefix_line, js_or. simpl. by rewrite Hunset, Hlabel.
  - intros -> Hcontinue ->. simpl.
    unfold prefix_line, js_or. by rewrite Hlabel, Hcontinue.
Qed.

(** *** What a transition does to the log *)

Lemma log_same state state' :
  items state' = items state → log_grows_by_at_most_one state state'.
Proof. by left. Qed.

Lemma log_snoc state state' item :
  items state' = items state ++ [item] →
  log_grows_by_at_most_one state state'.
Proof. right. by exists item. Qed.

Create HintDb log.
#[local] Hint Resolve log_same log_snoc : log.

Lemma handler_log responseType handler state result state' :
  responseTypeHandlers !! responseType = Some handler →
  handler state result = Returned state' →
  log_grows_by_at_most_one state state'.
Proof.
  intros Hhandler%responseTypeHandlers_Some Hreturned.
  repeat (apply elem_of_cons in Hhandler as [[= -> ->]|Hhandler]);
    [..|by apply elem_of_nil in Hhandler];
    [unfold display_data in Hreturned
    |unfold error in Hreturned
    |unfold execute_input, call_fromAsciiToHtml in Hreturned
    |unfold execute_result, call_fromAsciiToHtml in Hreturned
    |unfold execute_reply in Hreturned
    |unfold status in Hreturned
    |unfold stream, call_fromAsciiToHtml in Hreturned];
    simpl in Hreturned; returned; try case_decide; eauto with log.
Qed.

Lemma clearAutocomplete_log state :
  items (clearAutocomplete state) = items state
  ∨ ∃ matches,
      items state = items (clearAutocomplete state) ++ [AutocompleteItem matches].
Proof.
  unfold clearAutocomplete, removeLastHistoryItem.
  destruct (log_end (items state)) as [Hlog|(below & item & Hlog)].
  { rewrite Hlog. by left. }
  rewrite Hlog, last_snoc.
  destruct (is_autocomplete (Some item)) eqn:Hlast; simpl; [|by left].
  right. rewrite removelast_last.
  apply is_autocomplete_Some in Hlast. destruct item; try done. eauto.
Qed.

Lemma autocomplete_log state matches :
  items (autocomplete state matches) ≠ [].
Proof. unfold autocomplete, addHistoryItem. simpl. by destruct (items _). Qed.

(** C7: the [clear] command returns a state whose log is empty and whose
    other fields ([actives], [responses], [fontSize], [cwd], [promptLabel],
    [continueLabel], the command line) are those of the state it was
    given.  Of the other events handled in this file (the [execute]
    command goes to a helper outside it), the only ones that take a log
    with items in it to the empty log are the two that retract the
    suggestion overlay, [clearAutocomplete] and a prompt command carrying
    the [clearAutocomplete] flag, and only when the log is a single
    autocomplete item. *)
Theorem clear_empties_only_items state action state' :
  reducer state action = Returned state' →
  (action = CLEAR →
   items state' = []
   ∧ actives state' = actives state
   ∧ responses state' = responses state
   ∧ fontSize state' = fontSize state
   ∧ cwd state' = cwd state
   ∧ promptLabel state' = promptLabel state
   ∧ continueLabel state' = continueLabel state
   ∧ commandLine state' = commandLine state)
  ∧ (action ≠ CLEAR → action ≠ EXECUTING →
     items state ≠ [] → items state' = [] →
     (action = CLEAR_AUTOCOMPLETE
      ∨ action = PROMPT_VIEWER_COMMAND (Some {| clearAutocompleteFlag := true |}))
     ∧ ∃ matches, items state = [AutocompleteItem matches]).
Proof.
  intros Hreturned. split.
  { intros ->. simpl in Hreturned. injection Hreturned as <-. by repeat split. }
  intros Hclear Hexecuting Hitems Hempty.
  assert (∀ item, items state ++ [item] ≠ []) as Hsnoc
    by (intros item; by destruct (items state)).
  assert (items (clearAutocomplete state) = [] →
          ∃ matches, items state = [AutocompleteItem matches]) as Hretract.
  { intros Hnil. destruct (clearAutocomplete_log state) as [Hsame|[matches Hlast]].
    - congruence.
    - rewrite Hnil in Hlast. by exists matches. }
  destruct action; try done; simpl in Hreturned.
  - injection Hreturned as <-. by destruct (autocomplete_log state payload).
  - injection Hreturned as <-. split; [by left|]. by apply Hretract.
  - by injection Hreturned as <-.
  - injection Hreturned as <-. unfold interrupted in Hempty.
    destruct error0; simpl in Hempty; [by apply Hsnoc in Hempty|done].
  - unfold executed in Hreturned. returned. done.
  - injection Hreturned as <-. by apply Hsnoc in Hempty.
  - injection Hreturned as <-. unfold restarted in Hempty.
    destruct error0; simpl in Hempty; by apply Hsnoc in Hempty.
  - apply jupyterResponseDetected_cases in Hreturned
      as [->|(handler & Hhandler & Hreturned)]; [done|].
    destruct (handler_log _ _ _ _ _ Hhandler Hreturned) as [Hsame|[item Hitem]].
    + congruence.
    + rewrite Hitem in Hempty. by apply Hsnoc in Hempty.
  - injection Hreturned as <-. unfold changePreference in Hempty.
    by case_decide.
  - injection Hreturned as <-. unfold workingDirectoryChanged in Hempty.
    by destruct (truthy cwd0).
  - unfold promptCommand in Hreturned.
    destruct payload as [[[]]|]; [| |done]; injection Hreturned as <-.
    + split; [by right|]. by apply Hretract.
    + done.
Qed.

(** *** Missing fields *)

Lemma set_actives_same (state : St) :
  set_actives state (actives state) = state.
Proof. by destruct state. Qed.

Lemma prop_key_Some (o : option string) (key : string) :
  prop_key o = key → key ≠ "undefined" → o = Some key.
Proof. destruct o; simpl; [by intros ->|]. by intros <-. Qed.

Lemma get_document_not_foreign {A} (document : gmap string A) key :
  plain_name key → get_document document key ≠ Foreign.
Proof.
  intros [Hmethod Hmember]. unfold get_document.
  destruct (document !! key); [done|].
  by rewrite bool_decide_eq_false_2, Hmember.
Qed.

Lemma returned_same state result :
  degrades_gracefully state result (Returned state).
Proof. left. exists state. split; [done|]. split; [by left|done]. Qed.

Lemma returned_item state result item :
  (is_Some (data (content result))
   ∨ prop_key (msg_type result) ∉ ["display_data"; "execute_result"]) →
  degrades_gracefully state result (Returned (addHistoryItem state item)).
Proof.
  intros Hdata. left. eexists. split; [done|].
  split; [right; left; by eexists|].
  intros Hnone Htype. destruct Hdata as [[bundle Hbundle]|Hother];
    [congruence|done].
Qed.

Lemma rendered_item state result source text :
  (text = None → markup_text_missing state result) →
  prop_key (msg_type result) ∉ ["display_data"; "execute_result"] →
  degrades_gracefully state result
    (html ← call_fromAsciiToHtml textUtil text;
     Returned (addHistoryItem state (TextItem source html))).
Proof.
  intros Hmissing Htype. destruct text as [t|]; simpl.
  { apply returned_item. by right. }
  destruct (fromAsciiToHtml_undefined textUtil) as [blank|] eqn:Hblank; simpl.
  - apply returned_item. by right.
  - right. split; [done|]. split; [done|]. by apply Hmissing.
Qed.

Lemma not_data_type (key : string) :
  key ∈ ["error"; "execute_input"; "execute_reply"; "status"; "stream"] →
  key ∉ ["display_data"; "execute_result"].
Proof.
  intros Hkey Hdata.
  repeat (apply elem_of_cons in Hkey as [->|Hkey]);
    [..|by apply elem_of_nil in Hkey];
    repeat (apply elem_of_cons in Hdata as [[=]|Hdata]);
    by apply elem_of_nil in Hdata.
Qed.

(** C3: for a message of a request this viewer issued, no handler raises
    of its own when an [error] message carries its traceback sequence and
    an [execute_input] message carries its code whenever a prompt label is
    configured.  Every other missing field then ends in the state as it
    was (missing data) or in the state with one more item in the log; a
    missing text ([content.text] of a [stream] message, [content.code]
    without a prompt label) goes to the markup function unguarded, so the
    item carries what that function returns for it, and only an exception
    of that function can be the outcome.  Names that objects have without
    their being keys (an [error] for a request so named, a message type so
    named) are left aside. *)
Theorem handlers_return_on_missing_fields state result requestId :
  parent_header_msg_id result = Some requestId →
  registered state requestId →
  (msg_type result = Some "error" → plain_name requestId) →
  Object_prototype !! prop_key (msg_type result) = None →
  (msg_type result = Some "error" → is_Some (traceback (content result))) →
  (msg_type result = Some "execute_input" →
   truthy (promptLabel state) = true → is_Some (code (content result))) →
  degrades_gracefully state result (jupyterResponseDetected state result).
Proof.
  intros Hid Hregistered Hplain Hmember Htraceback Hcode.
  unfold jupyterResponseDetected.
  destruct (_ && _); [|apply returned_same].
  rewrite Hmember.
  destruct (responseTypeHandlers !! _) as [handler|] eqn:Hhandler;
    [|apply returned_same].
  apply responseTypeHandlers_Some in Hhandler.
  repeat (apply elem_of_cons in Hhandler as [[= Htype ->]|Hhandler]);
    [..|by apply elem_of_nil in Hhandler].
  - unfold display_data.
    destruct (data (content result)) as [bundle|] eqn:Hdata;
      [|apply returned_same].
    apply returned_item. left. by rewrite Hdata.
  - apply prop_key_Some in Htype as Hty; [|done].
    destruct (Htraceback Hty) as [lines Hlines].
    unfold error. rewrite Hlines, Hid. simpl.
    destruct (get_document (actives state) requestId) as [active| |] eqn:Hactive.
    + apply get_document_Own in Hactive.
      rewrite (insert_id _ _ _ Hactive).
      rewrite (set_actives_same (addHistoryItem state _)).
      apply returned_item. right. rewrite Htype. apply not_data_type.
      listed.
    + by destruct (get_document_not_foreign (actives state) requestId
                     (Hplain Hty)).
    + apply returned_item. right. rewrite Htype. apply not_data_type.
      listed.
  - apply prop_key_Some in Htype as Hty; [|done].
    assert (prop_key (msg_type result) ∉ ["display_data"; "execute_result"])
      as Hother by (rewrite Htype; apply not_data_type; listed).
    unfold execute_input.
    destruct (truthy (promptLabel state)) eqn:Hlabel.
    + destruct (Hcode Hty eq_refl) as [code Hsource]. rewrite Hsource. simpl.
      apply returned_item. by right.
    + simpl. apply rendered_item; [|done].
      intros Hnone. right. by repeat split.
  - unfold execute_result.
    destruct (data (content result)) as [bundle|] eqn:Hdata;
      [|apply returned_same].
    simpl. destruct (bundle !! "text/plain") as [plain|]; simpl.
    + destruct (negb _); simpl; apply returned_item; left; by rewrite Hdata.
    + apply returned_item. left. by rewrite Hdata.
  - apply returned_same.
  - apply prop_key_Some in Htype as Hty; [|done].
    unfold status. left. eexists. split; [done|]. split.
    + right. right. split; [done|]. case_decide; by eexists.
    + rewrite Htype. intros _ Hdata.
      destruct (not_data_type "status"); [listed|done].
  - apply prop_key_Some in Htype as Hty; [|done].
    unfold stream. apply rendered_item.
    + intros Hnone. left. by split.
    + rewrite Htype. apply not_data_type. listed.
Qed.

(** *** What the handlers leave undone *)

(** The updater of the [error] handler hands back the entry it was given:
    [actives] come out of the handler as they went in. *)
Lemma error_keeps_actives state result state' :
  error state result = Returned state' → actives state' = actives state.
Proof.
  unfold error. destruct (traceback (content result)) as [lines|]; [|done].
  simpl. destruct (get_document _ _) as [active| |] eqn:Hactive.
  - intros [= <-]. simpl. apply insert_id. by apply get_document_Own.
  - done.
  - by intros [= <-].
Qed.

Lemma error_without_traceback_raises state result :
  traceback (content result) = None → throws (error state result).
Proof. unfold error. by intros ->. Qed.

(** With a traceback, empty or not, the handler returns and the log gains
    the one [pythonError] item. *)
Lemma error_with_traceback_returns state result lines :
  traceback (content result) = Some lines →
  plain_name (prop_key (parent_header_msg_id result)) →
  ∃ state',
    error state result = Returned state'
    ∧ items state'
      = items state
        ++ [PythonErrorItem (ename (content result)) (evalue (content result))
              lines
              (map_toHtml textUtil (getAsciiToHtmlStream textUtil) lines)].
Proof.
  unfold error. intros -> Hplain. simpl.
  destruct (get_document _ _) eqn:Hactive; try by eexists.
  by destruct (get_document_not_foreign (actives state) _ Hplain).
Qed.

(** Under a request identifier that the document of active requests
    answers to without its being a key, the updater is handed something
    that is no entry and raises. *)
Lemma error_foreign_identifier_raises state result lines :
  traceback (content result) = Some lines →
  actives state !! prop_key (parent_header_msg_id result) = None →
  ¬ plain_name (prop_key (parent_header_msg_id result)) →
  throws (error state result).
Proof.
  unfold error. intros -> Hkey Hforeign. simpl.
  unfold get_document. rewrite Hkey.
  case_bool_decide as Hmethod; [done|].
  destruct (Object_prototype !! _) eqn:Hmember; [done|].
  by destruct Hforeign.
Qed.

Lemma executed_without_responses state payload :
  responses state = None → executed state payload = ReturnedUndefined.
Proof. unfold executed. by intros ->. Qed.

Lemma executed_with_responses state payload issued :
  responses state = Some issued →
  executed state payload
  = Returned (set_responses state (<[payload := ()]> issued)).
Proof. unfold executed. by intros ->. Qed.

(** ** Further properties of the reducer *)

(** *** The log primitives *)

Lemma set_items_same (state : St) : set_items state (items state) = state.
Proof. by destruct state. Qed.

(** X10: removing the last item undoes [addHistoryItem], and on an empty
    log [removeLastHistoryItem] changes nothing (the [pop] finds nothing to
    remove and does not raise). *)
Theorem removeLastHistoryItem_addHistoryItem state item :
  removeLastHistoryItem (addHistoryItem state item) = state
  ∧ (items state = [] → removeLastHistoryItem state = state).
Proof.
  unfold removeLastHistoryItem, addHistoryItem. split.
  - simpl. rewrite removelast_last. by destruct state.
  - intros Hempty. rewrite Hempty. simpl. rewrite <- Hempty.
    apply set_items_same.
Qed.

(** *** The overlay *)

Lemma set_items_twice (state : St) log log' :
  set_items (set_items state log) log' = set_items state log'.
Proof. done. Qed.

(** What the two overlay commands share: the log below a trailing
    overlay, or the whole log when it does not end in one. *)
Lemma overlay_base state :
  ∃ below,
    clearAutocomplete state = set_items state below
    ∧ ∀ matches,
        autocomplete state matches
        = set_items state (below ++ [AutocompleteItem matches]).
Proof.
  unfold clearAutocomplete, autocomplete, addHistoryItem,
    removeLastHistoryItem.
  destruct (is_autocomplete (last (items state))).
  - by exists (removelast (items state)).
  - exists (items state). split; [|done]. symmetry. apply set_items_same.
Qed.

Lemma clearAutocomplete_overlay (state : St) below matches :
  clearAutocomplete (set_items state (below ++ [AutocompleteItem matches]))
  = set_items state below.
Proof.
  unfold clearAutocomplete, removeLastHistoryItem. simpl.
  rewrite last_snoc. simpl. by rewrite removelast_last.
Qed.

(** X5: a second [autocomplete] replaces the overlay of the first: two in
    a row give the state that the second alone gives. *)
Theorem autocomplete_replaces state matches matches' :
  autocomplete (autocomplete state matches) matches'
  = autocomplete state matches'.
Proof.
  destruct (overlay_base state) as (below & _ & Hshape).
  rewrite !Hshape.
  unfold autocomplete, addHistoryItem, removeLastHistoryItem. simpl.
  rewrite last_snoc. simpl. by rewrite removelast_last.
Qed.

(** X6: [clearAutocomplete] after [autocomplete] is [clearAutocomplete]
    alone; when the log did not end in an overlay, the two together give
    the state back. *)
Theorem clearAutocomplete_autocomplete state matches :
  clearAutocomplete (autocomplete state matches) = clearAutocomplete state
  ∧ (is_autocomplete (last (items state)) = false →
     clearAutocomplete (autocomplete state matches) = state).
Proof.
  assert (clearAutocomplete (autocomplete state matches)
          = clearAutocomplete state) as Hsame.
  { destruct (overlay_base state) as (below & -> & ->).
    apply clearAutocomplete_overlay. }
  split; [done|]. intros Hlast. rewrite Hsame.
  unfold clearAutocomplete. by rewrite Hlast.
Qed.

Lemma count_autocomplete_autocomplete state matches :
  count_autocomplete (items (autocomplete state matches))
  = if is_autocomplete (last (items state))
    then count_autocomplete (items state)
    else S (count_autocomplete (items state)).
Proof.
  unfold autocomplete, addHistoryItem, removeLastHistoryItem.
  destruct (log_end (items state)) as [Hlog|(below & item & Hlog)].
  { rewrite Hlog. simpl. by rewrite Hlog. }
  rewrite Hlog, last_snoc.
  destruct (is_autocomplete (Some item)) eqn:Hlast; simpl.
  - rewrite removelast_last, !count_autocomplete_app, !count_autocomplete_one.
    apply is_autocomplete_Some in Hlast. by rewrite !decide_True.
  - rewrite Hlog, !count_autocomplete_app, !count_autocomplete_one.
    simpl. repeat case_decide; try done; lia.
Qed.

(** X7: [autocomplete] replaces an overlay only where the log ends: the
    number of autocomplete items stays as it is when the last item is one
    and grows by one otherwise, also when an overlay lies further down. *)
Theorem autocomplete_count state matches :
  count_autocomplete (items (autocomplete state matches))
  = if is_autocomplete (last (items state))
    then count_autocomplete (items state)
    else S (count_autocomplete (items state)).
Proof. apply count_autocomplete_autocomplete. Qed.

(** X8: once anything else was appended after an overlay, the next
    [autocomplete] does not replace it: the log then holds one more
    autocomplete item than before. *)
Theorem autocomplete_after_other_item state item matches :
  item_type item ≠ "autocomplete" →
  count_autocomplete
    (items (autocomplete (addHistoryItem state item) matches))
  = S (count_autocomplete (items state)).
Proof.
  intros Hother. rewrite count_autocomplete_autocomplete.
  unfold addHistoryItem. simpl. rewrite last_snoc.
  destruct (is_autocomplete (Some item)) eqn:Hlast.
  { by apply is_autocomplete_Some in Hlast. }
  rewrite count_autocomplete_app, count_autocomplete_one.
  rewrite decide_False by done. lia.
Qed.

(** *** What the handlers leave alone *)

Lemma same_session_refl (state : St) : same_session state state.
Proof. by repeat split. Qed.

Lemma handler_session responseType handler state result state' :
  responseTypeHandlers !! responseType = Some handler →
  handler state result = Returned state' →
  same_session state state'.
Proof.
  intros Hhandler%responseTypeHandlers_Some Hreturned.
  repeat (apply elem_of_cons in Hhandler as [[= -> ->]|Hhandler]);
    [..|by apply elem_of_nil in Hhandler];
    [unfold display_data in Hreturned
    |unfold error in Hreturned
    |unfold execute_input, call_fromAsciiToHtml in Hreturned
    |unfold execute_result, call_fromAsciiToHtml in Hreturned
    |unfold execute_reply in Hreturned
    |unfold status in Hreturned
    |unfold stream, call_fromAsciiToHtml in Hreturned];
    simpl in Hreturned; returned; try case_decide; by repeat split.
Qed.

Lemma handler_active_keys responseType handler state result state' :
  responseTypeHandlers !! responseType = Some handler →
  responseType ≠ "status" →
  handler state result = Returned state' →
  dom (actives state') = dom (actives state).
Proof.
  intros Hhandler%responseTypeHandlers_Some Hother Hreturned.
  repeat (apply elem_of_cons in Hhandler as [[= -> ->]|Hhandler]);
    [..|by apply elem_of_nil in Hhandler]; try done;
    [unfold display_data in Hreturned
    |by rewrite (error_keeps_actives _ _ _ Hreturned)
    |unfold execute_input, call_fromAsciiToHtml in Hreturned
    |unfold execute_result, call_fromAsciiToHtml in Hreturned
    |unfold execute_reply in Hreturned
    |unfold stream, call_fromAsciiToHtml in Hreturned];
    simpl in Hreturned; returned; done.
Qed.

Lemma autocomplete_sets_items state matches :
  autocomplete state matches
  = set_items state (items (autocomplete state matches)).
Proof.
  unfold autocomplete, addHistoryItem, removeLastHistoryItem.
  by destruct (is_autocomplete _).
Qed.

Lemma clearAutocomplete_sets_items state :
  clearAutocomplete state = set_items state (items (clearAutocomplete state)).
Proof.
  unfold clearAutocomplete, removeLastHistoryItem.
  destruct (is_autocomplete _); [done|]. symmetry. apply set_items_same.
Qed.

Lemma reducer_frame state action state' :
  reducer state action = Returned state' →
  action ≠ EXECUTING →
  promptLabel state' = promptLabel state
  ∧ continueLabel state' = continueLabel state
  ∧ commandLine state' = commandLine state
  ∧ ((∀ payload, action ≠ EXECUTED payload) →
     responses state' = responses state)
  ∧ ((∀ value, action ≠ CHANGE_PREFERENCE (Some "fontSize") value) →
     fontSize state' = fontSize state)
  ∧ ((∀ dir, action ≠ WORKING_DIRECTORY_CHANGED dir) →
     cwd state' = cwd state).
Proof.
  intros Hreturned Hexecuting.
  destruct action; try done; simpl in Hreturned.
  - injection Hreturned as <-. rewrite autocomplete_sets_items.
    by repeat split.
  - injection Hreturned as <-. rewrite clearAutocomplete_sets_items.
    by repeat split.
  - injection Hreturned as <-. by repeat split.
  - injection Hreturned as <-. by repeat split.
  - injection Hreturned as <-. unfold interrupted.
    destruct error0; by repeat split.
  - unfold executed in Hreturned. returned.
    repeat split; try done. intros Hother. by destruct (Hother payload).
  - injection Hreturned as <-. by repeat split.
  - injection Hreturned as <-. unfold restarted.
    destruct error0; by repeat split.
  - apply jupyterResponseDetected_cases in Hreturned
      as [->|(handler & Hhandler & Hreturned)]; [by repeat split|].
    destruct (handler_session _ _ _ _ _ Hhandler Hreturned)
      as (? & ? & ? & ? & ? & ?).
    by repeat split.
  - injection Hreturned as <-. unfold changePreference.
    case_decide as Hkey; [|by repeat split].
    repeat split; try done. intros Hother. subst key.
    by destruct (Hother value).
  - injection Hreturned as <-. unfold workingDirectoryChanged.
    destruct (truthy cwd0); [|by repeat split].
    repeat split; try done. intros Hother. by destruct (Hother cwd0).
  - unfold promptCommand in Hreturned.
    destruct payload as [[[]]|]; [| |done]; injection Hreturned as <-.
    + rewrite clearAutocomplete_sets_items. by repeat split.
    + by repeat split.
Qed.

(** X4: no event handled in this file writes [promptLabel],
    [continueLabel] or the command line; [responses] is written by the
    [executed] command only, [fontSize] by a [fontSize] preference change
    only, and [cwd] by [workingDirectoryChanged] only. *)
Theorem session_attributes_frame state action state' :
  reducer state action = Returned state' →
  action ≠ EXECUTING →
  promptLabel state' = promptLabel state
  ∧ continueLabel state' = continueLabel state
  ∧ commandLine state' = commandLine state
  ∧ ((∀ payload, action ≠ EXECUTED payload) →
     responses state' = responses state)
  ∧ ((∀ value, action ≠ CHANGE_PREFERENCE (Some "fontSize") value) →
     fontSize state' = fontSize state)
  ∧ ((∀ dir, action ≠ WORKING_DIRECTORY_CHANGED dir) →
     cwd state' = cwd state).
Proof. apply reducer_frame. Qed.

(** X2: a request enters or leaves the set of active requests through a
    [status] message only: any other event handled in this file leaves the
    keys of [actives] as they are. *)
Theorem active_keys_change_on_status_only state action state' :
  reducer state action = Returned state' →
  action ≠ EXECUTING →
  (∀ result, action = JUPYTER_RESPONSE result →
             msg_type result ≠ Some "status") →
  dom (actives state') = dom (actives state).
Proof.
  intros Hreturned Hexecuting Hstatus.
  destruct action; try done; simpl in Hreturned.
  - injection Hreturned as <-. by rewrite autocomplete_sets_items.
  - injection Hreturned as <-. by rewrite clearAutocomplete_sets_items.
  - by injection Hreturned as <-.
  - by injection Hreturned as <-.
  - injection Hreturned as <-. unfold interrupted. by destruct error0.
  - unfold executed in Hreturned. by returned.
  - by injection Hreturned as <-.
  - injection Hreturned as <-. unfold restarted. by destruct error0.
  - apply jupyterResponseDetected_cases in Hreturned
      as [->|(handler & Hhandler & Hreturned)]; [done|].
    eapply handler_active_keys; [done| |done].
    intros Htype. apply (Hstatus result eq_refl).
    destruct (msg_type result) as [responseType|]; [|done].
    simpl in Htype. by subst responseType.
  - injection Hreturned as <-. unfold changePreference. by case_decide.
  - injection Hreturned as <-. unfold workingDirectoryChanged.
    by destruct (truthy cwd0).
  - unfold promptCommand in Hreturned.
    destruct payload as [[[]]|]; [| |done]; injection Hreturned as <-.
    + by rewrite clearAutocomplete_sets_items.
    + done.
Qed.

(** *** Sequences of events *)

Lemma appending_step state action state' :
  appending action →
  reducer state action = Returned state' →
  log_grows_by_at_most_one state state'.
Proof.
  intros Happending Hreturned.
  destruct action; try done; simpl in Hreturned.
  - injection Hreturned as <-. by left.
  - injection Hreturned as <-. unfold interrupted.
    destruct error0; [by right; eexists|by left].
  - unfold executed in Hreturned. returned. by left.
  - injection Hreturned as <-. right. by eexists.
  - injection Hreturned as <-. unfold restarted.
    destruct error0; right; by eexists.
  - apply jupyterResponseDetected_cases in Hreturned
      as [->|(handler & Hhandler & Hreturned)]; [by left|].
    by eapply handler_log.
  - injection Hreturned as <-. unfold changePreference.
    left. by case_decide.
  - injection Hreturned as <-. unfold workingDirectoryChanged.
    left. by destruct (truthy cwd0).
  - simpl in Happending. subst payload. simpl in Hreturned.
    injection Hreturned as <-. by left.
Qed.

(** X1: over any sequence of events without [clear], overlay commands and
    [execute], the log only grows at its end: the log the sequence started
    from is a prefix of the log it ends with, and the log is longer by at
    most one item per event. *)
Theorem log_append_only actions : ∀ state state',
  Forall appending actions →
  run state actions = Returned state' →
  items state `prefix_of` items state'
  ∧ length (items state') ≤ length (items state) + length actions.
Proof.
  induction actions as [|action actions IH]; intros state state' Hall Hrun.
  - injection Hrun as <-. split; [done|]. simpl. lia.
  - apply Forall_cons in Hall as [Hfirst Hall]. simpl in Hrun.
    destruct (reducer state action) as [state1| | |] eqn:Hstep; try done.
    simpl in Hrun.
    destruct (IH state1 state' Hall Hrun) as [Hprefix Hlength].
    destruct (appending_step _ _ _ Hfirst Hstep) as [Hsame|[item Hitem]].
    + rewrite Hsame in *. split; [done|]. simpl. lia.
    + rewrite Hitem in *. split.
      * etrans; [|done]. by apply prefix_app_r.
      * rewrite length_app in Hlength. simpl in *. lia.
Qed.

Lemma registered_step state action state' requestId :
  action ≠ EXECUTING →
  reducer state action = Returned state' →
  registered state requestId → registered state' requestId.
Proof.
  intros Hexecuting Hreturned (issued & Hissued & Hkey).
  assert ((∃ payload, action = EXECUTED payload)
          ∨ ∀ payload, action ≠ EXECUTED payload) as [[payload ->]|Hother]
    by (destruct action; eauto).
  - simpl in Hreturned. unfold executed in Hreturned.
    rewrite Hissued in Hreturned. injection Hreturned as <-.
    eexists. split; [done|]. simpl.
    destruct (decide (payload = requestId)) as [->|Hne].
    + by rewrite lookup_insert_eq.
    + by rewrite lookup_insert_ne.
  - destruct (reducer_frame _ _ _ Hreturned Hexecuting)
      as (_ & _ & _ & Hresponses & _).
    exists issued. split; [|done]. by rewrite Hresponses.
Qed.

(** X3: a request that was issued stays registered: over any sequence of
    events without [execute], an identifier that is a key of [responses]
    is still one at the end. *)
Theorem registered_persists actions : ∀ state state' requestId,
  Forall (λ action, action ≠ EXECUTING) actions →
  run state actions = Returned state' →
  registered state requestId → registered state' requestId.
Proof.
  induction actions as [|action actions IH];
    intros state state' requestId Hall Hrun Hregistered.
  - by injection Hrun as <-.
  - apply Forall_cons in Hall as [Hfirst Hall]. simpl in Hrun.
    destruct (reducer state action) as [state1| | |] eqn:Hstep; try done.
    simpl in Hrun. eapply IH; [done..|].
    by eapply registered_step.
Qed.

(** *** Requests *)

(** X9: [busy] followed by [idle] for the same request: both handlers
    return, the log gains two page breaks, and the request is not active
    afterwards; when it was not active before either, [actives] are back to
    what they were. *)
Theorem status_busy_then_idle state busy idle requestId :
  parent_header_msg_id busy = Some requestId →
  parent_header_msg_id idle = Some requestId →
  execution_state (content busy) = Some "busy" →
  execution_state (content idle) ≠ Some "busy" →
  ∃ state1 state2,
    status state busy = Returned state1
    ∧ status state1 idle = Returned state2
    ∧ items state2 = items state ++ [PageBreakItem; PageBreakItem]
    ∧ actives state1 !! requestId = Some emptyActive
    ∧ actives state2 = delete requestId (actives state)
    ∧ (actives state !! requestId = None → actives state2 = actives state).
Proof.
  intros Hbusy Hidle Hstate Hstate'.
  eexists _, _. split; [done|]. split; [done|].
  unfold status. rewrite Hbusy, Hidle, Hstate. simpl.
  rewrite decide_False by done. simpl.
  split; [by rewrite <- app_assoc|].
  split; [by rewrite lookup_insert_eq|].
  rewrite delete_insert_eq. split; [done|].
  intros Hinactive. by apply delete_id.
Qed.

(** X11: what [executed] is for.  A message for a request that is not a
    key of [responses], under an identifier that reads as [undefined]
    there, is ignored; once [executed] has registered the request (a
    non-empty identifier), the same message reaches the handler of its
    type. *)
Theorem executed_enables_routing state issued payload result handler :
  responses state = Some issued →
  issued !! payload = None →
  plain_name payload →
  payload ≠ "" →
  parent_header_msg_id result = Some payload →
  responseTypeHandlers !! prop_key (msg_type result) = Some handler →
  jupyterResponseDetected state result = Returned state
  ∧ ∃ state1,
      executed state payload = Returned state1
      ∧ jupyterResponseDetected state1 result = handler state1 result.
Proof.
  intros Hissued Hfresh Hplain Hne Hid Hhandler. split.
  - unfold jupyterResponseDetected. rewrite Hid, Hissued. simpl.
    rewrite get_document_plain by done. simpl.
    by rewrite andb_false_r.
  - eexists. split; [by apply executed_with_responses|].
    eapply jupyterResponseDetected_routed; [done..| |done].
    eexists. split; [done|]. by rewrite lookup_insert_eq.
Qed.

(** X14: a message without a request identifier, or with the empty string
    for one, is ignored whatever [responses] holds, also when the empty
    string is one of its keys. *)
Theorem message_without_identifier_ignored state result :
  truthy (parent_header_msg_id result) = false →
  jupyterResponseDetected state result = Returned state.
Proof. unfold jupyterResponseDetected. by intros ->. Qed.

(** *** Handlers *)

Lemma length_map_toHtml lines : ∀ converter,
  length (map_toHtml textUtil converter lines) = length lines.
Proof.
  induction lines as [|line lines IH]; intros converter; simpl; [done|].
  destruct (toHtml textUtil converter line) as [html converter'].
  simpl. by rewrite IH.
Qed.

(** X12: an [error] message that carries a traceback, for a request
    whose identifier reads as [undefined] wherever it is not a key, ends,
    whatever else the message lacks, in one more item in the log: a
    [pythonError] item with the name, the value and the traceback as they
    came, and a stack trace of as many lines as the traceback has.
    [responses], [fontSize], [cwd], the prompt labels and the command line
    stay as they are. *)
Theorem error_appends_item state result lines :
  traceback (content result) = Some lines →
  plain_name (prop_key (parent_header_msg_id result)) →
  ∃ state' stacktrace,
    error state result = Returned state'
    ∧ items state'
      = items state
        ++ [PythonErrorItem (ename (content result))
              (evalue (content result)) lines stacktrace]
    ∧ length stacktrace = length lines
    ∧ same_session state state'.
Proof.
  intros Hlines Hplain.
  destruct (error_with_traceback_returns state result lines Hlines Hplain)
    as (state' & Hreturned & Hitems).
  exists state', (map_toHtml textUtil (getAsciiToHtmlStream textUtil) lines).
  split; [done|]. split; [done|]. split; [apply length_map_toHtml|].
  eapply (handler_session "error"); [done|exact Hreturned].
Qed.

(** X13: [display_data], [execute_result], [execute_reply] and [status]
    messages of a request this viewer issued are handled without any
    precondition: whatever fields the message lacks and whatever the markup
    function does with a missing text, the transition returns a state, and
    the log is as it was or one item longer. *)
Theorem unconditional_handlers_return state result :
  prop_key (msg_type result) ∈ unconditional_types →
  ∃ state',
    jupyterResponseDetected state result = Returned state'
    ∧ log_grows_by_at_most_one state state'.
Proof.
  intros Htype.
  assert (∃ state', jupyterResponseDetected state result = Returned state')
    as [state' Hreturned].
  { unfold jupyterResponseDetected. destruct (_ && _); [|by eexists].
    unfold unconditional_types in Htype.
    repeat (apply elem_of_cons in Htype as [->|Htype]);
      [..|by apply elem_of_nil in Htype].
    - change (responseTypeHandlers !! "display_data")
        with (Some display_data).
      unfold display_data. destruct (data _); by eexists.
    - change (responseTypeHandlers !! "execute_result")
        with (Some execute_result).
      unfold execute_result. destruct (data _) as [bundle|]; [|by eexists].
      simpl. destruct (bundle !! "text/plain") as [plain|]; simpl;
        [|by eexists].
      destruct (negb _); by eexists.
    - change (responseTypeHandlers !! "execute_reply")
        with (Some execute_reply).
      by eexists.
    - rewrite responseTypeHandlers_status. by eexists. }
  exists state'. split; [done|].
  apply jupyterResponseDetected_cases in Hreturned
    as [->|(handler & Hhandler & Hreturned)]; [by left|].
  by eapply handler_log.
Qed.

(** X15: which representation of a result is shown.  A bundle with a
    non-empty [text/plain] entry is shown as a [stdout] text item rendered
    from that entry, whatever else the bundle holds; a bundle without the
    entry, or with the empty string for it, is shown as an annotation
    carrying the whole bundle. *)
Theorem execute_result_prefers_plain_text state result bundle :
  data (content result) = Some bundle →
  (∀ plain,
     bundle !! "text/plain" = Some plain → plain ≠ "" →
     execute_result state result
     = Returned
         (addHistoryItem state
            (TextItem (Some "stdout") (fromAsciiToHtml textUtil plain))))
  ∧ (bundle !! "text/plain" = None ∨ bundle !! "text/plain" = Some "" →
     execute_result state result
     = Returned (addHistoryItem state (AnnotationItem bundle))).
Proof.
  intros Hdata. unfold execute_result. rewrite Hdata. simpl. split.
  - intros plain Hplain Hne. rewrite Hplain. simpl.
    apply String.eqb_neq in Hne. by rewrite Hne.
  - by intros [->| ->].
Qed.

(** X16: without a prompt label (none, or the empty string) the code of
    an [execute_input] message goes to markup rendering as it came, line
    breaks included; a [continueLabel] alone has no effect. *)
Theorem execute_input_without_label state result text :
  truthy (promptLabel state) = false →
  code (content result) = Some text →
  execute_input state result
  = Returned
      (addHistoryItem state
         (TextItem (name (content result)) (fromAsciiToHtml textUtil text))).
Proof. intros Hlabel Hcode. unfold execute_input. by rewrite Hlabel, Hcode. Qed.

(** X17: a prompt command with the [clearAutocomplete] flag does what the
    [clearAutocomplete] command does, one without the flag returns the
    state it was given, and one without a payload raises. *)
Theorem promptCommand_cases state :
  reducer state (PROMPT_VIEWER_COMMAND (Some {| clearAutocompleteFlag := true |}))
  = reducer state CLEAR_AUTOCOMPLETE
  ∧ reducer state
      (PROMPT_VIEWER_COMMAND (Some {| clearAutocompleteFlag := false |}))
    = Returned state
  ∧ throws (reducer state (PROMPT_VIEWER_COMMAND None)).
Proof. by repeat split. Qed.

Lemma overlay_safe_step state action state' :
  overlay_safe action →
  reducer state action = Returned state' →
  overlay_free_below (items state) →
  overlay_free_below (items state').
Proof.
  intros Hsafe Hreturned Hfree.
  destruct action; try done; simpl in Hreturned.
  - injection Hreturned as <-. by apply autocomplete_overlay_free.
  - injection Hreturned as <-. by apply clearAutocomplete_overlay_free.
  - by injection Hreturned as <-.
  - by injection Hreturned as <-.
  - simpl in Hsafe. subst error0. by injection Hreturned as <-.
  - unfold executed in Hreturned. by returned.
  - injection Hreturned as <-. unfold changePreference. by case_decide.
  - injection Hreturned as <-. unfold workingDirectoryChanged.
    by destruct (truthy cwd0).
  - unfold promptCommand in Hreturned.
    destruct payload as [[[]]|]; [| |done]; injection Hreturned as <-.
    + by apply clearAutocomplete_overlay_free.
    + done.
Qed.

(** X18: the single overlay survives every event that puts nothing at
    the end of the log.  From a log with no autocomplete item below its
    last item, a sequence of overlay commands, [clear], prompt commands,
    preference and directory changes, [executed], [interrupting] and
    successful [interrupted] ends, when it returns, in a log with at most
    one autocomplete item, which is then the last item. *)
Theorem overlay_survives actions : ∀ state state',
  Forall overlay_safe actions →
  overlay_free_below (items state) →
  run state actions = Returned state' →
  count_autocomplete (items state') ≤ 1 ∧ overlay_at_tail (items state').
Proof.
  induction actions as [|action actions IH]; intros state state' Hall Hfree Hrun.
  - injection Hrun as <-. by apply overlay_free_below_single.
  - apply Forall_cons in Hall as [Hfirst Hall]. simpl in Hrun.
    destruct (reducer state action) as [state1| | |] eqn:Hstep; try done.
    simpl in Hrun. eapply IH; [done| |done].
    by eapply overlay_safe_step.
Qed.

End Reducer.

(** ** The sample session *)

(** A full round trip: a request is issued, goes busy, answers [42] and
    goes idle again. *)
Example round_trip :
  ∃ state',
    run Sample.textUtil Sample.toNumber Sample.execute Sample.fresh
      [EXECUTED "5";
       JUPYTER_RESPONSE (Sample.statusOf "5" "busy");
       JUPYTER_RESPONSE Sample.result42;
       JUPYTER_RESPONSE (Sample.statusOf "5" "idle")]
    = Returned state'
    ∧ items state'
      = [PageBreakItem; TextItem (Some "stdout") "42"; PageBreakItem]
    ∧ actives state' = ∅
    ∧ responses state' = Some {[ "5" := () ]}.
Proof. eexists. repeat split; reflexivity. Qed.

(** C1: request [R] is active with an empty error list and the kernel
    reports [ValueError: bad] against it.  The handler returns, the log
    gains the one [pythonError] item named [ValueError], the active entry
    stays, but its error list is still empty: the updater builds the longer
    list, hands it to [set], and returns the entry it started from. *)
Theorem error_report_not_recorded :
  ∃ state',
    jupyterResponseDetected Sample.textUtil Sample.busyR
      (Sample.valueError ["line1"]) = Returned state'
    ∧ items state'
      = [PythonErrorItem (Some "ValueError") (Some "bad") ["line1"] ["line1"]]
    ∧ actives state' !! "R" = Some {| errors := Some [] |}
    ∧ actives state' !! "R"
      ≠ Some {| errors :=
                  Some [JsArray [JsString "ValueError"; JsString "bad";
                                 JsArray [JsString "line1"]]] |}.
Proof.
  eexists. split; [reflexivity|]. split; [reflexivity|].
  split; [reflexivity|]. vm_compute. discriminate.
Qed.

(** C9: the same report with a traceback that is present and empty.  The
    handler returns and the log gains a [pythonError] item whose traceback
    and stack trace are both empty; the error list of the active entry is
    as empty as before, nothing was added to it. *)
Theorem error_empty_traceback_not_recorded :
  ∃ state',
    jupyterResponseDetected Sample.textUtil Sample.busyR
      (Sample.valueError []) = Returned state'
    ∧ items state'
      = [PythonErrorItem (Some "ValueError") (Some "bad") [] []]
    ∧ actives state' !! "R" = Some {| errors := Some [] |}.
Proof.
  eexists. split; [reflexivity|]. split; reflexivity.
Qed.

(** C2: on a document without [responses] the [executed] command hands
    back [undefined], not the state. *)
Theorem executed_without_responses_undefined :
  responses Sample.unrouted = None
  ∧ executed Sample.unrouted "5" = ReturnedUndefined
  ∧ reducer Sample.textUtil Sample.toNumber Sample.execute
      Sample.unrouted (EXECUTED "5") = ReturnedUndefined
  ∧ executed Sample.fresh "5"
    = Returned (set_responses Sample.fresh {[ "5" := () ]}).
Proof. repeat split; reflexivity. Qed.

(** C3, refuted as stated: request [5] is registered, a prompt label is
    configured, and an [execute_input] message for [5] comes without its
    code.  The handler raises a [TypeError] on splitting the missing
    code. *)
Lemma execute_input_without_code_raises :
  registered Sample.prompted "5"
  ∧ msg_type (Sample.input None) = Some "execute_input"
  ∧ code (content (Sample.input None)) = None
  ∧ jupyterResponseDetected Sample.textUtil Sample.prompted
      (Sample.input None)
    = Threw (TypeError "Cannot read property 'split' of undefined").
Proof.
  split; [|by repeat split].
  eexists. split; [reflexivity|]. by eexists.
Qed.

(** C7, refuted as stated: [clearAutocomplete] is not [clear], and it takes
    the log made of one autocomplete item to the empty log. *)
Lemma clearAutocomplete_empties_log :
  CLEAR_AUTOCOMPLETE ≠ CLEAR
  ∧ items Sample.overlaid ≠ []
  ∧ ∃ state',
      reducer Sample.textUtil Sample.toNumber Sample.execute
        Sample.overlaid CLEAR_AUTOCOMPLETE = Returned state'
      ∧ items state' = [].
Proof.
  split; [done|]. split; [done|]. eexists. split; reflexivity.
Qed.

(** Four overlay commands on a fresh document, looked at after the third. *)
Lemma autocomplete_single_overlay_sample :
  ∃ state',
    run Sample.textUtil Sample.toNumber Sample.execute Sample.fresh
      (take 3 [AUTOCOMPLETE ["pr"]; AUTOCOMPLETE ["print"];
               CLEAR_AUTOCOMPLETE; AUTOCOMPLETE ["property"]])
    = Returned state'
    ∧ count_autocomplete (items state') ≤ 1
    ∧ overlay_at_tail (items state').
Proof.
  apply autocomplete_single_overlay; [repeat constructor|reflexivity].
Defined.

(** Request [R] goes idle. *)
Lemma status_tracks_busy_sample :
  ∃ state',
    status Sample.busyR (Sample.statusOf "R" "idle") = Returned state'
    ∧ items state' = items Sample.busyR ++ [PageBreakItem]
    ∧ actives state' = delete "R" (actives Sample.busyR).
Proof.
  destruct (status_tracks_busy Sample.busyR (Sample.statusOf "R" "idle") "R"
              eq_refl) as (state' & Hreturned & Hitems & _ & Hidle).
  exists state'. split; [exact Hreturned|]. split; [exact Hitems|].
  apply Hidle. discriminate.
Defined.

(** A message for a request that was never issued, and one of a type
    without a handler for a request that was. *)
Lemma plain_message_ignored_sample :
  jupyterResponseDetected Sample.textUtil Sample.fresh
    (Sample.statusOf "7" "busy") = Returned Sample.fresh
  ∧ reducer Sample.textUtil Sample.toNumber Sample.execute Sample.issued
      (JUPYTER_RESPONSE Sample.commOpen) = Returned Sample.issued.
Proof.
  split.
  - apply (plain_message_ignored Sample.textUtil Sample.toNumber
             Sample.execute).
    left. intros requestId [= <-]. split; [plain|].
    intros (issued & [= <-] & key & Hkey). discriminate Hkey.
  - apply (plain_message_ignored Sample.textUtil Sample.toNumber
             Sample.execute).
    right. split; [|reflexivity]. unfold known_types. simpl. intros Hin.
    repeat (apply elem_of_cons in Hin as [[=]|Hin]).
    by apply elem_of_nil in Hin.
Defined.

(** C6: messages that ought to be ignored and are not.  [constructor] is
    no key of [responses], yet a [status] message under that identifier is
    handled and the log gains its page break, because the read of
    [state.responses[id]] finds what every object inherits.  [toString] and
    [__proto__] name no handler, yet for a registered request the first is
    called and its string comes back in place of the state, and the second,
    not being a function, raises. *)
Theorem inherited_names_not_ignored :
  ¬ registered Sample.fresh "constructor"
  ∧ (∃ state',
       jupyterResponseDetected Sample.textUtil Sample.fresh
         (Sample.statusOf "constructor" "idle") = Returned state'
       ∧ items state' = items Sample.fresh ++ [PageBreakItem])
  ∧ ("toString" ∉ known_types)
  ∧ ("__proto__" ∉ known_types)
  ∧ registered Sample.issued "5"
  ∧ jupyterResponseDetected Sample.textUtil Sample.issued
      (Sample.ofType "toString") = ReturnedOther (NsString "[object Object]")
  ∧ throws
      (jupyterResponseDetected Sample.textUtil Sample.issued
         (Sample.ofType "__proto__")).
Proof.
  split.
  { intros (issued & [= <-] & key & Hkey). discriminate Hkey. }
  split; [eexists; split; reflexivity|].
  assert (∀ key : string,
            key ∈ known_types →
            key = "display_data" ∨ key = "error" ∨ key = "execute_input"
            ∨ key = "execute_result" ∨ key = "execute_reply"
            ∨ key = "status" ∨ key = "stream") as Hknown.
  { intros key Hin. unfold known_types in Hin.
    repeat (apply elem_of_cons in Hin as [->|Hin]); eauto 10.
    by apply elem_of_nil in Hin. }
  split; [intros Hin%Hknown; by repeat destruct Hin as [Hin|Hin]|].
  split; [intros Hin%Hknown; by repeat destruct Hin as [Hin|Hin]|].
  split; [eexists; split; [reflexivity|by eexists]|].
  split; [reflexivity|exact I].
Qed.

(** A [stream] message without text, with a markup function that raises
    on a missing text and with one that takes it. *)
Example stream_without_text :
  jupyterResponseDetected Sample.strictTextUtil Sample.issued
    (Sample.ofType "stream") = Threw ServiceError
  ∧ jupyterResponseDetected Sample.textUtil Sample.issued
      (Sample.ofType "stream")
    = Returned (addHistoryItem Sample.issued (TextItem None "")).
Proof. split; reflexivity. Qed.

(** An [error] message under the identifier [constructor], which is the
    key of no active request. *)
Example error_for_inherited_name :
  throws
    (error Sample.textUtil Sample.fresh
       {| content := content (Sample.valueError ["line1"]);
          parent_header_msg_id := Some "constructor";
          msg_type := Some "error" |}).
Proof. exact I. Qed.

(** The overlay is retracted from a log that holds nothing else; [clear]
    on the same document. *)
Lemma clear_empties_only_items_sample :
  (items (clear Sample.overlaid) = []
   ∧ cwd (clear Sample.overlaid) = cwd Sample.overlaid)
  ∧ ∃ matches, items Sample.overlaid = [AutocompleteItem matches].
Proof.
  split.
  - destruct (clear_empties_only_items Sample.textUtil Sample.toNumber
                Sample.execute Sample.overlaid CLEAR (clear Sample.overlaid)
                eq_refl) as [Hclear _].
    destruct (Hclear eq_refl) as (Hitems & _ & _ & _ & Hcwd & _).
    by split.
  - destruct (clear_empties_only_items Sample.textUtil Sample.toNumber
                Sample.execute Sample.overlaid CLEAR_AUTOCOMPLETE
                (clearAutocomplete Sample.overlaid) eq_refl) as [_ Hother].
    apply Hother; [discriminate|discriminate|discriminate|reflexivity].
Defined.

(** Two lines of code under Python's prompt labels. *)
Lemma execute_input_prefixes_lines_sample :
  ∃ lines,
    execute_input Sample.textUtil Sample.prompted
      (Sample.input (Some ("a" +:+ nl +:+ "b")))
    = Returned
        (addHistoryItem Sample.prompted
           (TextItem (Some "stdin") (str_join nl lines)))
    ∧ str_join nl lines = ">>> a" +:+ nl +:+ "... b".
Proof.
  destruct (execute_input_prefixes_lines Sample.textUtil Sample.prompted
              (Sample.input (Some ("a" +:+ nl +:+ "b"))) ">>> "
              ("a" +:+ nl +:+ "b") eq_refl ltac:(discriminate) eq_refl)
    as (lines & Hreturned & _ & _ & _ & _ & Hsample).
  exists lines. split; [exact Hreturned|]. by apply Hsample.
Defined.

(** A [stream] message that has neither text nor source name: the log
    gains a text item with the markup of the missing text. *)
Lemma handlers_return_on_missing_fields_sample :
  text (content (Sample.ofType "stream")) = None
  ∧ ∃ state',
      jupyterResponseDetected Sample.textUtil Sample.issued
        (Sample.ofType "stream") = Returned state'
      ∧ degrades_to Sample.issued (Sample.ofType "stream") state'.
Proof.
  split; [reflexivity|].
  destruct (handlers_return_on_missing_fields Sample.textUtil Sample.issued
              (Sample.ofType "stream") "5")
    as [(state' & Hreturned & Hdegrades & _)|(_ & Hraises & _)].
  - reflexivity.
  - eexists. split; [reflexivity|]. by eexists.
  - discriminate.
  - reflexivity.
  - discriminate.
  - discriminate.
  - exists state'. split; [exact Hreturned|exact Hdegrades].
  - discriminate Hraises.
Defined.

(** ** Further runs of the sample session *)

(** A restart notice, a result and a directory change. *)
Lemma log_append_only_sample :
  ∃ state',
    run Sample.textUtil Sample.toNumber Sample.execute Sample.issued
      [RESTARTING; JUPYTER_RESPONSE Sample.result42;
       WORKING_DIRECTORY_CHANGED (Some "/tmp")] = Returned state'
    ∧ items Sample.issued `prefix_of` items state'
    ∧ length (items state') ≤ length (items Sample.issued) + 3.
Proof.
  eexists. split; [reflexivity|].
  apply (log_append_only Sample.textUtil Sample.toNumber Sample.execute
           [RESTARTING; JUPYTER_RESPONSE Sample.result42;
            WORKING_DIRECTORY_CHANGED (Some "/tmp")]);
    [repeat constructor|reflexivity].
Defined.

(** An error reported against the active request [R]. *)
Lemma active_keys_change_on_status_only_sample :
  ∃ state',
    reducer Sample.textUtil Sample.toNumber Sample.execute Sample.busyR
      (JUPYTER_RESPONSE (Sample.valueError ["line1"])) = Returned state'
    ∧ dom (actives state') = dom (actives Sample.busyR).
Proof.
  eexists. split; [reflexivity|].
  apply (active_keys_change_on_status_only Sample.textUtil Sample.toNumber
           Sample.execute Sample.busyR
           (JUPYTER_RESPONSE (Sample.valueError ["line1"])));
    [reflexivity|discriminate|].
  intros result [= <-]. discriminate.
Defined.

(** Request [5] stays registered while another request is issued, the log
    is cleared and [5] goes busy. *)
Lemma registered_persists_sample :
  ∃ state',
    run Sample.textUtil Sample.toNumber Sample.execute Sample.issued
      [EXECUTED "6"; CLEAR; JUPYTER_RESPONSE (Sample.statusOf "5" "busy")]
    = Returned state'
    ∧ registered state' "5".
Proof.
  eexists. split; [reflexivity|].
  apply (registered_persists Sample.textUtil Sample.toNumber Sample.execute
           [EXECUTED "6"; CLEAR;
            JUPYTER_RESPONSE (Sample.statusOf "5" "busy")] Sample.issued).
  - repeat constructor; discriminate.
  - reflexivity.
  - eexists. split; [reflexivity|]. by eexists.
Defined.

(** A font size change under Python's prompt labels. *)
Lemma session_attributes_frame_sample :
  ∃ state',
    reducer Sample.textUtil Sample.toNumber Sample.execute Sample.prompted
      (CHANGE_PREFERENCE (Some "fontSize") (JsString "14"))
    = Returned state'
    ∧ promptLabel state' = Some ">>> "
    ∧ cwd state' = Some "/home".
Proof.
  eexists. split; [reflexivity|].
  destruct (session_attributes_frame Sample.textUtil Sample.toNumber
              Sample.execute Sample.prompted
              (CHANGE_PREFERENCE (Some "fontSize") (JsString "14")) _
              eq_refl ltac:(discriminate))
    as (Hprompt & _ & _ & _ & _ & Hcwd).
  split; [exact Hprompt|]. apply Hcwd. discriminate.
Defined.

(** A page break lands on the overlay, then new suggestions arrive. *)
Lemma autocomplete_after_other_item_sample :
  count_autocomplete
    (items (autocomplete (addHistoryItem Sample.overlaid PageBreakItem)
              ["print"]))
  = S (count_autocomplete (items Sample.overlaid)).
Proof.
  apply (autocomplete_after_other_item Sample.overlaid PageBreakItem).
  discriminate.
Defined.

(** Request [5] goes busy and idle on a fresh document. *)
Lemma status_busy_then_idle_sample :
  ∃ state1 state2,
    status Sample.fresh (Sample.statusOf "5" "busy") = Returned state1
    ∧ status state1 (Sample.statusOf "5" "idle") = Returned state2
    ∧ items state2 = [PageBreakItem; PageBreakItem]
    ∧ actives state2 = actives Sample.fresh.
Proof.
  destruct (status_busy_then_idle Sample.fresh (Sample.statusOf "5" "busy")
              (Sample.statusOf "5" "idle") "5" eq_refl eq_refl eq_refl
              ltac:(discriminate))
    as (state1 & state2 & Hbusy & Hidle & Hitems & _ & _ & Hactives).
  exists state1, state2. split; [exact Hbusy|]. split; [exact Hidle|].
  split; [exact Hitems|]. apply Hactives. reflexivity.
Defined.

(** The [busy] status of request [5] before and after [5] was issued. *)
Lemma executed_enables_routing_sample :
  jupyterResponseDetected Sample.textUtil Sample.fresh
    (Sample.statusOf "5" "busy") = Returned Sample.fresh
  ∧ ∃ state1,
      executed Sample.fresh "5" = Returned state1
      ∧ jupyterResponseDetected Sample.textUtil state1
          (Sample.statusOf "5" "busy")
        = status state1 (Sample.statusOf "5" "busy").
Proof.
  apply (executed_enables_routing Sample.textUtil Sample.fresh ∅ "5"
           (Sample.statusOf "5" "busy") status);
    [reflexivity|reflexivity|plain|discriminate|reflexivity|reflexivity].
Defined.

(** A status message with the empty string for a request, on a document
    that has the empty string registered. *)
Lemma message_without_identifier_ignored_sample :
  registered Sample.blankIssued ""
  ∧ jupyterResponseDetected Sample.textUtil Sample.blankIssued
      Sample.blankStatus = Returned Sample.blankIssued.
Proof.
  split.
  - eexists. split; [reflexivity|]. by eexists.
  - apply message_without_identifier_ignored. reflexivity.
Defined.

(** An error with a traceback of two lines. *)
Lemma error_appends_item_sample :
  ∃ state' stacktrace,
    error Sample.textUtil Sample.busyR (Sample.valueError ["a"; "b"])
    = Returned state'
    ∧ items state'
      = [PythonErrorItem (Some "ValueError") (Some "bad") ["a"; "b"]
           stacktrace]
    ∧ length stacktrace = 2.
Proof.
  destruct (error_appends_item Sample.textUtil Sample.busyR
              (Sample.valueError ["a"; "b"]) ["a"; "b"] eq_refl
              ltac:(plain))
    as (state' & stacktrace & Hreturned & Hitems & Hlength & _).
  exists state', stacktrace.
  split; [exact Hreturned|]. split; [exact Hitems|exact Hlength].
Defined.

(** The result [42] of request [5]. *)
Lemma unconditional_handlers_return_sample :
  ∃ state',
    jupyterResponseDetected Sample.textUtil Sample.issued Sample.result42
    = Returned state'
    ∧ log_grows_by_at_most_one Sample.issued state'.
Proof.
  apply unconditional_handlers_return.
  unfold unconditional_types. simpl.
  apply elem_of_cons. right. apply elem_of_cons. by left.
Defined.

Lemma execute_result_prefers_plain_text_sample :
  execute_result Sample.textUtil Sample.issued Sample.result42
  = Returned (addHistoryItem Sample.issued (TextItem (Some "stdout") "42")).
Proof.
  destruct (execute_result_prefers_plain_text Sample.textUtil Sample.issued
              Sample.result42 {[ "text/plain" := "42" ]} eq_refl)
    as [Hplain _].
  apply (Hplain "42"); [reflexivity|discriminate].
Defined.

(** Two lines of code with no prompt label configured. *)
Lemma execute_input_without_label_sample :
  execute_input Sample.textUtil Sample.issued
    (Sample.input (Some ("a" +:+ nl +:+ "b")))
  = Returned
      (addHistoryItem Sample.issued
         (TextItem (Some "stdin") ("a" +:+ nl +:+ "b"))).
Proof.
  apply (execute_input_without_label Sample.textUtil Sample.issued
           (Sample.input (Some ("a" +:+ nl +:+ "b")))); reflexivity.
Defined.

(** The overlay is retracted, shown again, kept over a directory change,
    retracted by the prompt and shown once more. *)
Lemma overlay_survives_sample :
  ∃ state',
    run Sample.textUtil Sample.toNumber Sample.execute Sample.overlaid
      [CLEAR_AUTOCOMPLETE; AUTOCOMPLETE ["a"];
       WORKING_DIRECTORY_CHANGED (Some "/tmp");
       PROMPT_VIEWER_COMMAND (Some {| clearAutocompleteFlag := true |});
       AUTOCOMPLETE ["b"]] = Returned state'
    ∧ count_autocomplete (items state') ≤ 1
    ∧ overlay_at_tail (items state').
Proof.
  eexists. split; [reflexivity|].
  apply (overlay_survives Sample.textUtil Sample.toNumber Sample.execute
           [CLEAR_AUTOCOMPLETE; AUTOCOMPLETE ["a"];
            WORKING_DIRECTORY_CHANGED (Some "/tmp");
            PROMPT_VIEWER_COMMAND (Some {| clearAutocompleteFlag := true |});
            AUTOCOMPLETE ["b"]] Sample.overlaid);
    [repeat constructor|reflexivity|reflexivity].
Defined.
